(** * securedrop_client.logic: the Controller and the APICallRunner

    A shallow embedding of [securedrop_client/logic.py].  The two classes of
    the module are embedded as state transformers:

    - [APICallRunner.call_api] acts on a runner record (the callable, its
      arguments, the [result] attribute) and a list of the effects it has
      had (signals emitted, errors logged);
    - every method of [Controller] is a computation in a small state and
      exception monad [M] over the record [Controller].  The calls the
      controller makes on its collaborators (the GUI, the job queue, the
      storage module, the sync flag file, the logger) and the Qt signals it
      emits are appended, in program order, to the [trace] field.

    Python exceptions are values of [PyException]; a method that raises
    leaves the state as it was at the raising statement. *)

From Stdlib Require Import ZArith Lia Sorting.Sorted.
From stdpp Require Import base gmap strings list.

(** ** Python values *)

(** The model classes [db.Reply], [db.Message] and [db.File], as they are
    passed for [object_type] (annotated
    [Union[Type[db.Reply], Type[db.Message], Type[db.File]]]). *)
Inductive ObjectType : Type := Reply | Message | File.

(** The exceptions the module raises, inspects with [isinstance], or reads
    fields of.  All of them derive from Python's [Exception], which is what
    [except Exception] in [APICallRunner.call_api] catches. *)
Inductive PyException : Type :=
| RequestTimeoutError
| DownloadChecksumMismatchException (object_type : ObjectType) (uuid : string)
| SendReplyJobError (reply_uuid : string)
| SendReplyJobTimeoutError (reply_uuid : string)
| UpdateStarJobException
| AttributeError (attribute : string)
| KeyError (key : string)
| NoResultFound
| MultipleResultsFound
| OtherException (message : string).

Inductive PyValue : Type :=
| PyNone
| PyBool (b : bool)
| PyStr (s : string)
| PyExc (ex : PyException).

(** What calling a Python callable does: it returns or it raises. *)
Inductive Outcome (A : Type) : Type :=
| Returned (a : A)
| Raised (ex : PyException).
Arguments Returned {A} a.
Arguments Raised {A} ex.

Definition isinstance_RequestTimeoutError (ex : PyException) : bool :=
  match ex with RequestTimeoutError => true | _ => false end.

(** ** APICallRunner *)

Module APICallRunner.

Inductive Signal : Type := call_succeeded | call_failed | call_timed_out.

Inductive Effect : Type :=
| emit (s : Signal)
| logger_error (ex : PyException).

(** The attributes set by [__init__], and the effects the runner has had
    so far.  [api_call] is the callable: given the arguments it returns a
    value or raises. *)
Record t : Type := {
  api_call : list PyValue -> Outcome PyValue;
  current_object : PyValue;
  args : list PyValue;
  result : PyValue;
  effects : list Effect
}.

Definition __init__ (api_call : list PyValue -> Outcome PyValue)
    (current_object : PyValue) (args : list PyValue) : t :=
  {| api_call := api_call; current_object := current_object; args := args;
     result := PyNone; effects := [] |}.

Definition set_result (v : PyValue) (r : t) : t :=
  {| api_call := api_call r; current_object := current_object r;
     args := args r; result := v; effects := effects r |}.

Definition perform (e : Effect) (r : t) : t :=
  {| api_call := api_call r; current_object := current_object r;
     args := args r; result := result r; effects := effects r ++ [e] |}.

Definition call_api (r : t) : t :=
  match api_call r (args r) with
  | Raised ex =>
      let r := if isinstance_RequestTimeoutError ex
               then perform (emit call_timed_out) r else r in
      let r := perform (logger_error ex) r in
      let r := set_result (PyExc ex) r in
      perform (emit call_failed) r
  | Returned v =>
      let r := set_result v r in
      perform (emit call_succeeded) r
  end.

Definition is_emit (s : Signal) (e : Effect) : bool :=
  match e, s with
  | emit call_succeeded, call_succeeded => true
  | emit call_failed, call_failed => true
  | emit call_timed_out, call_timed_out => true
  | _, _ => false
  end.

(** How many times signal [s] was emitted in a list of effects. *)
Definition emitted (s : Signal) (l : list Effect) : nat :=
  length (List.filter (is_emit s) l).

End APICallRunner.

(** ** The local store, as the controller reads and writes it *)

Module Source.
Record t : Type := {
  id : Z;
  uuid : string;
  last_updated : Z;
  is_starred : bool;
  interaction_count : Z
}.
End Source.

(** [db.ReplySendStatusCodes].  The status table is filled when the database
    is created, so a status row is identified with its code. *)
Inductive ReplySendStatusCodes : Type := PENDING | FAILED | SENT.

Module DraftReply.
Record t : Type := {
  uuid : string;
  timestamp : Z;
  source_id : Z;
  journalist_id : option string;
  file_counter : Z;
  content : string;
  send_status_id : ReplySendStatusCodes
}.

Definition is_pending (d : t) : bool :=
  match send_status_id d with PENDING => true | _ => false end.
End DraftReply.

(** A [db.Message] or [db.Reply] row: [content] is [None] until the item
    has been downloaded and decrypted. *)
Module Item.
Record t : Type := {
  uuid : string;
  content : option string
}.
End Item.

Module User.
Record t : Type := {
  uuid : option string;
  username : string;
  firstname : string;
  lastname : string
}.
End User.

(** The attributes of a [db.File] that the file methods read. *)
Module File.
Record t : Type := {
  uuid : string;
  filename : string;
  original_filename : string
}.
End File.

(** The SQLAlchemy session: the committed rows, and the objects added with
    [session.add] that [session.commit] has not written yet. *)
Module Session.

(** A [db.File] row: the file, and its [is_downloaded] column. *)
Record file_row : Type := {
  file : File.t;
  is_downloaded : bool
}.

Record t : Type := {
  sources : list Source.t;
  messages : list Item.t;
  replies : list Item.t;
  files : list file_row;
  draftreplies : list DraftReply.t;
  users : list User.t;
  new : list DraftReply.t
}.

Definition add (d : DraftReply.t) (s : t) : t :=
  {| sources := sources s; messages := messages s; replies := replies s;
     files := files s;
     draftreplies := draftreplies s; users := users s; new := new s ++ [d] |}.

Definition commit (s : t) : t :=
  {| sources := sources s; messages := messages s; replies := replies s;
     files := files s;
     draftreplies := draftreplies s ++ new s; users := users s; new := [] |}.

(** [query(db.Source).filter_by(uuid=source_uuid)]. *)
Definition query_Source_filter_by_uuid (source_uuid : string) (s : t)
  : list Source.t :=
  List.filter (fun x => String.eqb (Source.uuid x) source_uuid) (sources s).

(** [Query.one()]: exactly one row, or an exception. *)
Definition one {A : Type} (rows : list A) : Outcome A :=
  match rows with
  | [] => Raised NoResultFound
  | [x] => Returned x
  | _ :: _ :: _ => Raised MultipleResultsFound
  end.
End Session.

(** The functions of [securedrop_client.storage] that the controller
    calls. *)
Module storage.

Definition get_local_sources (s : Session.t) : list Source.t :=
  Session.sources s.

Definition no_content (i : Item.t) : bool :=
  match Item.content i with None => true | Some _ => false end.

(** Modelled from the spec: [storage.find_new_messages] is not part of this
    module; it returns every message that exists in the local store but has
    no corresponding content yet. *)
Definition find_new_messages (s : Session.t) : list Item.t :=
  List.filter no_content (Session.messages s).

(** Modelled from the spec: [storage.find_new_replies] is not part of this
    module; it returns every reply that exists in the local store but has no
    corresponding content yet. *)
Definition find_new_replies (s : Session.t) : list Item.t :=
  List.filter no_content (Session.replies s).

Definition fail_if_pending (d : DraftReply.t) : DraftReply.t :=
  if DraftReply.is_pending d then
    {| DraftReply.uuid := DraftReply.uuid d;
       DraftReply.timestamp := DraftReply.timestamp d;
       DraftReply.source_id := DraftReply.source_id d;
       DraftReply.journalist_id := DraftReply.journalist_id d;
       DraftReply.file_counter := DraftReply.file_counter d;
       DraftReply.content := DraftReply.content d;
       DraftReply.send_status_id := FAILED |}
  else d.

(** Modelled from the spec: [storage.mark_all_pending_drafts_as_failed] is
    not part of this module; it sweeps all PENDING drafts to FAILED, and
    commits. *)
Definition mark_all_pending_drafts_as_failed (s : Session.t) : Session.t :=
  {| Session.sources := Session.sources s;
     Session.messages := Session.messages s;
     Session.replies := Session.replies s;
     Session.files := Session.files s;
     Session.draftreplies :=
       List.map fail_if_pending (Session.draftreplies s ++ Session.new s);
     Session.users := Session.users s;
     Session.new := [] |}.

Definition same_user (uuid : option string) (u : User.t) : bool :=
  match uuid, User.uuid u with
  | Some a, Some b => String.eqb a b
  | None, None => true
  | _, _ => false
  end.

(** Modelled from the spec: [storage.update_and_get_user] is not part of
    this module; it records or updates the local user identity from the
    profile fields the server provided, and returns it. *)
Definition update_and_get_user (uuid : option string)
    (username firstname lastname : string) (s : Session.t)
  : User.t * Session.t :=
  let user := {| User.uuid := uuid; User.username := username;
                 User.firstname := firstname; User.lastname := lastname |} in
  let others := List.filter (fun u => negb (same_user uuid u)) (Session.users s) in
  (user,
   {| Session.sources := Session.sources s;
      Session.messages := Session.messages s;
      Session.replies := Session.replies s;
      Session.files := Session.files s;
      Session.draftreplies := Session.draftreplies s;
      Session.users := others ++ [user];
      Session.new := Session.new s |}).

Definition mark_as_not_downloaded (missing : File.t -> bool)
    (row : Session.file_row) : Session.file_row :=
  if missing (Session.file row)
  then {| Session.file := Session.file row; Session.is_downloaded := false |}
  else row.

(** Modelled from the spec: [storage.update_missing_files] is not part of
    this module; it scans the local store against the file system and marks
    any now-missing file as not-downloaded.  [missing] is the answer of the
    file system: whether the content of a file is missing from the data
    directory. *)
Definition update_missing_files (missing : File.t -> bool) (s : Session.t)
  : Session.t :=
  {| Session.sources := Session.sources s;
     Session.messages := Session.messages s;
     Session.replies := Session.replies s;
     Session.files := List.map (mark_as_not_downloaded missing) (Session.files s);
     Session.draftreplies := Session.draftreplies s;
     Session.users := Session.users s;
     Session.new := Session.new s |}.

End storage.

(** ** Python's [list.sort(key=..., reverse=True)]

    The sort is stable, also with [reverse=True]: elements whose keys are
    equal keep their original order.  It is embedded as a stable insertion
    sort into descending key order. *)

Section Sort.
Context {A : Type} (key : A -> Z).

Fixpoint insert_reverse (x : A) (l : list A) : list A :=
  match l with
  | [] => [x]
  | y :: l' =>
      if (key y <=? key x)%Z then x :: y :: l'
      else y :: insert_reverse x l'
  end.

Definition sort_reverse (l : list A) : list A :=
  List.fold_right insert_reverse [] l.

(** Later elements never have a greater key. *)
Definition descending : list A -> Prop :=
  StronglySorted (fun a b => (key b <= key a)%Z).

(** The elements whose key is [k], in the order they have in the list. *)
Definition with_key (k : Z) (l : list A) : list A :=
  List.filter (fun a => (key a =? k)%Z) l.

End Sort.

(** ** The remote API handle and the jobs *)

(** The attributes of an [sdclientapi.API] object that the controller
    reads.  [token] is [None] until [authenticate] has succeeded. *)
Module API.
Record t : Type := {
  username : string;
  token : option string;
  token_journalist_uuid : option string;
  journalist_first_name : string;
  journalist_last_name : string
}.
End API.

Module sdclientapi.
(** [sdclientapi.API(hostname, username, password, totp, proxy,
    default_request_timeout=60)]: a handle that has not authenticated yet.
    The controller never reads the password or the passcode back. *)
Definition API (username password totp : string) : API.t :=
  {| API.username := username; API.token := None;
     API.token_journalist_uuid := None;
     API.journalist_first_name := ""; API.journalist_last_name := "" |}.
End sdclientapi.

(** The job constructors.  The [data_dir] and [gpg] arguments are fixed
    attributes of the controller and are left out. *)
Inductive ApiJob : Type :=
| MetadataSyncJob
| ReplyDownloadJob (uuid : string)
| MessageDownloadJob (uuid : string)
| FileDownloadJob (uuid : string)
| UpdateStarJob (source_uuid : string) (is_starred : bool)
| DeleteSourceJob (source_uuid : string)
| SendReplyJob (source_uuid reply_uuid message : string).

(** The slots a job's signals are connected to: the controller's handlers,
    or the callable a caller of [update_star] passes in. *)
Inductive Slot : Type :=
| slot_on_sync_success
| slot_on_sync_failure
| slot_on_reply_download_success
| slot_on_reply_download_failure
| slot_on_message_download_success
| slot_on_message_download_failure
| slot_on_file_download_success
| slot_on_file_download_failure
| slot_on_update_star_success
| slot_on_update_star_failure
| slot_on_delete_source_success
| slot_on_delete_source_failure
| slot_on_reply_success
| slot_on_reply_failure
| slot_callback (name : string).

(** A job object as it is handed to the queue: the constructor call and the
    slots connected to its two signals, in connection order. *)
Module Job.
Record t : Type := {
  job : ApiJob;
  success_signal : list Slot;
  failure_signal : list Slot
}.
End Job.

(** ** What the controller does to the outside *)

Inductive LogLevel : Type := DEBUG | INFO.

Inductive Event : Type :=
(* signals of the Controller *)
| sync_events_emit (status : string)
| reply_succeeded_emit (reply_uuid : string)
| reply_failed_emit (reply_uuid : string)
| authentication_state_emit (is_authenticated : bool)
(* self.gui *)
| gui_update_error_status (message : string) (duration : option Z)
    (retry : option bool)
| gui_clear_error_status
| gui_update_activity_status (message : string) (duration : Z)
| gui_hide_login
| gui_show_main_window (user : option User.t)
| gui_show_login_error (error : string)
| gui_show_sources (sources : list Source.t)
| gui_show_sync (last_sync : option Z)
| gui_logout
(* self.api_job_queue *)
| api_job_queue_enqueue (job : Job.t)
| api_job_queue_login (api : API.t)
| api_job_queue_logout
| api_job_queue_resume_queues
(* storage and self.session *)
| storage_mark_all_pending_drafts_as_failed
| storage_update_missing_files
| storage_update_and_get_user (user : User.t)
| session_add (draft_reply : DraftReply.t)
| session_commit
(* the sync_flag file, a worker thread, the logger *)
| sync_flag_write (now : Z)
| thread_start (thread_id : string)
| logger (level : LogLevel).

(** ** Controller *)

Module Controller.

(** The bound methods of the API handle that are run through [call_api]. *)
Inductive ApiCall : Type :=
| api_authenticate (api : API.t)
| api_logout (api : API.t).

(** The success and failure callbacks handed to [call_api]. *)
Inductive Callback : Type :=
| cb_on_authenticate_success
| cb_on_authenticate_failure
| cb_on_logout_success
| cb_on_logout_failure.

(** An entry of [api_threads]: the runner (its callable, its
    [current_object], its [result]) and the callbacks that the two lambdas
    connected to the runner's signals close over. *)
Record ThreadInfo : Type := {
  runner_api_call : ApiCall;
  runner_current_object : PyValue;
  runner_result : PyValue;
  on_call_succeeded : Callback;
  on_call_failed : Callback
}.

Record t : Type := {
  is_authenticated : bool;          (* self.__is_authenticated *)
  api : option API.t;               (* self.api *)
  session : Session.t;              (* self.session *)
  api_threads : gmap string ThreadInfo;
  sync_flag : option Z;             (* what the sync_flag file holds *)
  trace : list Event
}.

(** [Controller.__init__]: unauthenticated, no API handle, no thread. *)
Definition __init__ (session : Session.t) (sync_flag : option Z) : t :=
  {| is_authenticated := false; api := None; session := session;
     api_threads := ∅; sync_flag := sync_flag; trace := [] |}.

(** *** The monad: state, and a value or a raised exception *)

Definition M (A : Type) : Type := t -> t * Outcome A.

Definition ret {A : Type} (a : A) : M A := fun st => (st, Returned a).

Definition raise {A : Type} (ex : PyException) : M A :=
  fun st => (st, Raised ex).

Definition bind {A B : Type} (m : M A) (k : A -> M B) : M B :=
  fun st =>
    match m st with
    | (st', Returned a) => k a st'
    | (st', Raised ex) => (st', Raised ex)
    end.

Notation "'do' x <- m ; k" := (bind m (fun x => k))
  (at level 10, x name, m at level 100, k at level 200, only parsing).
Notation "m >> k" := (bind m (fun _ => k))
  (at level 100, k at level 200, right associativity, only parsing).

Definition get : M t := fun st => (st, Returned st).

Definition lift {A : Type} (o : Outcome A) : M A := fun st => (st, o).

Definition emit (e : Event) : M unit :=
  fun st =>
    ({| is_authenticated := is_authenticated st; api := api st;
        session := session st; api_threads := api_threads st;
        sync_flag := sync_flag st; trace := trace st ++ [e] |}, Returned tt).

Definition set___is_authenticated (b : bool) : M unit :=
  fun st =>
    ({| is_authenticated := b; api := api st;
        session := session st; api_threads := api_threads st;
        sync_flag := sync_flag st; trace := trace st |}, Returned tt).

Definition set_api (a : option API.t) : M unit :=
  fun st =>
    ({| is_authenticated := is_authenticated st; api := a;
        session := session st; api_threads := api_threads st;
        sync_flag := sync_flag st; trace := trace st |}, Returned tt).

Definition set_session (s : Session.t) : M unit :=
  fun st =>
    ({| is_authenticated := is_authenticated st; api := api st;
        session := s; api_threads := api_threads st;
        sync_flag := sync_flag st; trace := trace st |}, Returned tt).

Definition set_api_threads (m : gmap string ThreadInfo) : M unit :=
  fun st =>
    ({| is_authenticated := is_authenticated st; api := api st;
        session := session st; api_threads := m;
        sync_flag := sync_flag st; trace := trace st |}, Returned tt).

Definition set_sync_flag (f : option Z) : M unit :=
  fun st =>
    ({| is_authenticated := is_authenticated st; api := api st;
        session := session st; api_threads := api_threads st;
        sync_flag := f; trace := trace st |}, Returned tt).

(** The state after the events [l] have happened. *)
Definition append (l : list Event) (st : t) : t :=
  {| is_authenticated := is_authenticated st; api := api st;
     session := session st; api_threads := api_threads st;
     sync_flag := sync_flag st; trace := trace st ++ l |}.

(** [for x in l: body(x)] *)
Fixpoint for_each {A : Type} (l : list A) (body : A -> M unit) : M unit :=
  match l with
  | [] => ret tt
  | x :: l' => body x >> for_each l' body
  end.

(** The state a computation leaves, and what it returned or raised. *)
Definition exec {A : Type} (m : M A) (st : t) : t := fst (m st).
Definition outcome {A : Type} (m : M A) (st : t) : Outcome A := snd (m st).

(** *** The methods *)

(** The setter of the [is_authenticated] property. *)
Definition is_authenticated_setter (is_authenticated_ : bool) : M unit :=
  do st <- get;
  if negb (Bool.eqb (is_authenticated st) is_authenticated_) then
    emit (authentication_state_emit is_authenticated_) >>
    set___is_authenticated is_authenticated_
  else ret tt.

(** [uuid.uuid4()] is an input: [new_thread_id] is the string it gives. *)
Definition call_api (new_thread_id : string) (api_call_func : ApiCall)
    (success_callback failure_callback : Callback) : M unit :=
  do st <- get;
  set_api_threads
    (<[new_thread_id :=
         {| runner_api_call := api_call_func;
            runner_current_object := PyNone;
            runner_result := PyNone;
            on_call_succeeded := success_callback;
            on_call_failed := failure_callback |}]> (api_threads st)) >>
  emit (thread_start new_thread_id).

Definition on_queue_paused : M unit :=
  do st <- get;
  match api st with
  | None =>
      emit (gui_update_error_status
              "The SecureDrop server cannot be reached." None None)
  | Some _ =>
      emit (gui_update_error_status
              "The SecureDrop server cannot be reached."
              (Some 0%Z) (Some true))
  end.

Definition resume_queues : M unit :=
  emit api_job_queue_resume_queues.

Definition on_action_requiring_login : M unit :=
  emit (gui_update_error_status
          "You must sign in to perform this action." None None).

(** [bool(self.api and self.api.token is not None)] *)
Definition authenticated (st : t) : bool :=
  match api st with
  | None => false
  | Some a => match API.token a with None => false | Some _ => true end
  end.

Definition sync_api : M unit :=
  emit (logger DEBUG) >>
  do st <- get;
  if authenticated st then
    emit (sync_events_emit "syncing") >>
    emit (logger DEBUG) >>
    emit (api_job_queue_enqueue
            {| Job.job := MetadataSyncJob;
               Job.success_signal := [slot_on_sync_success];
               Job.failure_signal := [slot_on_sync_failure] |}) >>
    emit (logger DEBUG)
  else ret tt.

(** The time the sync flag file holds, [None] when it cannot be read. *)
Definition last_sync (st : t) : option Z := sync_flag st.

Definition update_sync : M unit :=
  do st <- get;
  emit (gui_show_sync (last_sync st)).

Definition update_sources : M unit :=
  do st <- get;
  let sources := storage.get_local_sources (session st) in
  let sources :=
    match sources with
    | [] => sources
    | _ :: _ => sort_reverse Source.last_updated sources
    end in
  emit (gui_show_sources sources) >>
  update_sync.

Definition set_status (message : string) (duration : Z) : M unit :=
  emit (gui_update_activity_status message duration).

Definition _submit_download_job (object_type : ObjectType) (uuid : string)
  : M unit :=
  let job :=
    match object_type with
    | Reply =>
        {| Job.job := ReplyDownloadJob uuid;
           Job.success_signal := [slot_on_reply_download_success];
           Job.failure_signal := [slot_on_reply_download_failure] |}
    | Message =>
        {| Job.job := MessageDownloadJob uuid;
           Job.success_signal := [slot_on_message_download_success];
           Job.failure_signal := [slot_on_message_download_failure] |}
    | File =>
        {| Job.job := FileDownloadJob uuid;
           Job.success_signal := [slot_on_file_download_success];
           Job.failure_signal := [slot_on_file_download_failure] |}
    end in
  emit (api_job_queue_enqueue job).

Definition download_new_messages : M unit :=
  do st <- get;
  let messages := storage.find_new_messages (session st) in
  (if (0 <? length messages)%nat
   then set_status "Downloading new messages" 5000
   else ret tt) >>
  for_each messages (fun message =>
    _submit_download_job Message (Item.uuid message)).

Definition download_new_replies : M unit :=
  do st <- get;
  let replies := storage.find_new_replies (session st) in
  for_each replies (fun reply =>
    _submit_download_job Reply (Item.uuid reply)).

(** How the [with open(self.sync_flag, 'w')] block ends: the file is
    opened and the time is written, or the block raises, and [held] is what
    [last_sync] finds in the file afterwards (the marker it held before, when
    it is [open] that raised). *)
Inductive SyncFlagWrite : Type :=
| flag_written
| flag_not_written (ex : PyException) (held : option Z).

(** [arrow.now()] is an input: [now] is the time it gives, in the seconds
    that [format()] writes.  So are the end of the write of the flag file,
    and the answer of the file system to [storage.update_missing_files]. *)
Definition on_sync_success (now : Z) (write : SyncFlagWrite)
    (missing : File.t -> bool) : M unit :=
  emit gui_clear_error_status >>
  (match write with
   | flag_written => set_sync_flag (Some now) >> emit (sync_flag_write now)
   | flag_not_written ex held => set_sync_flag held >> raise ex
   end) >>
  (do st <- get;
   set_session (storage.update_missing_files missing (session st))) >>
  emit storage_update_missing_files >>
  update_sources >>
  download_new_messages >>
  download_new_replies >>
  emit (sync_events_emit "synced") >>
  resume_queues.

Definition on_sync_failure (result : PyException) : M unit :=
  emit (logger DEBUG) >>
  emit (gui_update_error_status
          "The SecureDrop server cannot be reached."
          (Some 0%Z) (Some true)).

Definition login (new_thread_id : string) (username password totp : string)
  : M unit :=
  do st <- get;
  set_session (storage.mark_all_pending_drafts_as_failed (session st)) >>
  emit storage_mark_all_pending_drafts_as_failed >>
  let new_api := sdclientapi.API username password totp in
  set_api (Some new_api) >>
  call_api new_thread_id (api_authenticate new_api)
    cb_on_authenticate_success cb_on_authenticate_failure.

Definition on_authenticate_success (result : PyValue) : M unit :=
  do st <- get;
  match api st with
  | None => raise (AttributeError "username")
  | Some a =>
      emit (logger INFO) >>
      emit gui_hide_login >>
      let (user, s) :=
        storage.update_and_get_user
          (API.token_journalist_uuid a) (API.username a)
          (API.journalist_first_name a) (API.journalist_last_name a)
          (session st) in
      set_session s >>
      emit (storage_update_and_get_user user) >>
      emit (gui_show_main_window (Some user)) >>
      emit (api_job_queue_login a) >>
      sync_api >>
      is_authenticated_setter true >>
      resume_queues
  end.

Definition on_authenticate_failure (result : PyValue) : M unit :=
  set_api None >>
  emit (gui_show_login_error
          "There was a problem signing in. Please verify your credentials and try again.").

Definition login_offline_mode : M unit :=
  emit gui_hide_login >>
  emit (gui_show_main_window None) >>
  do st <- get;
  set_session (storage.mark_all_pending_drafts_as_failed (session st)) >>
  emit storage_mark_all_pending_drafts_as_failed >>
  is_authenticated_setter false >>
  update_sources.

Definition on_update_star_success (result : PyValue) : M unit :=
  emit gui_clear_error_status.

Definition on_update_star_failure (result : PyException) : M unit :=
  emit (logger INFO) >>
  emit (gui_update_error_status "Failed to update star." None None).

Definition update_star (source_db_object : Source.t) (callback : string)
  : M unit :=
  do st <- get;
  match api st with
  | None => on_action_requiring_login
  | Some _ =>
      emit (api_job_queue_enqueue
              {| Job.job := UpdateStarJob (Source.uuid source_db_object)
                              (Source.is_starred source_db_object);
                 Job.success_signal :=
                   [slot_on_update_star_success; slot_callback callback];
                 Job.failure_signal := [slot_on_update_star_failure] |})
  end.

Definition logout (new_thread_id : string) : M unit :=
  do st <- get;
  match api st with
  | None => raise (AttributeError "logout")
  | Some a =>
      call_api new_thread_id (api_logout a)
        cb_on_logout_success cb_on_logout_failure >>
      set_api None >>
      emit api_job_queue_logout >>
      (do st' <- get;
       set_session (storage.mark_all_pending_drafts_as_failed (session st'))) >>
      emit storage_mark_all_pending_drafts_as_failed >>
      emit gui_logout >>
      is_authenticated_setter false
  end.

Definition on_message_download_failure (exception : PyException) : M unit :=
  emit (logger DEBUG) >>
  match exception with
  | DownloadChecksumMismatchException object_type uuid =>
      emit (logger DEBUG) >>
      _submit_download_job object_type uuid
  | _ => ret tt
  end.

Definition on_reply_download_failure (exception : PyException) : M unit :=
  emit (logger DEBUG) >>
  match exception with
  | DownloadChecksumMismatchException object_type uuid =>
      emit (logger DEBUG) >>
      _submit_download_job object_type uuid
  | _ => ret tt
  end.

Definition on_submission_download (submission_type : ObjectType)
    (submission_uuid : string) : M unit :=
  do st <- get;
  match api st with
  | Some _ =>
      _submit_download_job submission_type submission_uuid >>
      set_status "Downloading file" 5000
  | None => on_action_requiring_login
  end.

Definition on_file_download_failure (exception : PyException) : M unit :=
  emit (logger DEBUG) >>
  match exception with
  | DownloadChecksumMismatchException object_type uuid =>
      emit (logger DEBUG) >>
      _submit_download_job object_type uuid
  | _ =>
      emit (gui_update_error_status
              "The file download failed. Please try again." None None)
  end.

Definition on_delete_source_failure (result : PyException) : M unit :=
  emit (logger INFO) >>
  emit (gui_update_error_status "Failed to delete source at server" None None).

Definition delete_source (source : Source.t) : M unit :=
  do st <- get;
  match api st with
  | None => on_action_requiring_login
  | Some _ =>
      emit (api_job_queue_enqueue
              {| Job.job := DeleteSourceJob (Source.uuid source);
                 Job.success_signal := [slot_on_delete_source_success];
                 Job.failure_signal := [slot_on_delete_source_failure] |})
  end.

(** [datetime.utcnow()] is an input: [utcnow] is the time it gives. *)
Definition send_reply (utcnow : Z) (source_uuid reply_uuid message : string)
  : M unit :=
  do st <- get;
  do source <-
    lift (Session.one
            (Session.query_Source_filter_by_uuid source_uuid (session st)));
  let reply_status := PENDING in
  match api st with
  | None => raise (AttributeError "token_journalist_uuid")
  | Some a =>
      let draft_reply :=
        {| DraftReply.uuid := reply_uuid;
           DraftReply.timestamp := utcnow;
           DraftReply.source_id := Source.id source;
           DraftReply.journalist_id := API.token_journalist_uuid a;
           DraftReply.file_counter := Source.interaction_count source;
           DraftReply.content := message;
           DraftReply.send_status_id := reply_status |} in
      set_session (Session.add draft_reply (session st)) >>
      emit (session_add draft_reply) >>
      (do st' <- get; set_session (Session.commit (session st'))) >>
      emit session_commit >>
      emit (api_job_queue_enqueue
              {| Job.job := SendReplyJob source_uuid reply_uuid message;
                 Job.success_signal := [slot_on_reply_success];
                 Job.failure_signal := [slot_on_reply_failure] |})
  end.

Definition on_reply_success (reply_uuid : string) : M unit :=
  emit (logger DEBUG) >>
  emit gui_clear_error_status >>
  emit (reply_succeeded_emit reply_uuid) >>
  sync_api.

Definition on_reply_failure (exception : PyException) : M unit :=
  match exception with
  | SendReplyJobError reply_uuid | SendReplyJobTimeoutError reply_uuid =>
      emit (logger DEBUG) >>
      emit (reply_failed_emit reply_uuid)
  | _ => raise (AttributeError "reply_uuid")
  end.

Definition on_logout_success (result : PyValue) : M unit :=
  emit (logger INFO) >>
  emit gui_clear_error_status.

Definition on_logout_failure (result : PyValue) : M unit :=
  emit (logger INFO).

Definition user_callback (cb : Callback) (result_data : PyValue) : M unit :=
  match cb with
  | cb_on_authenticate_success => on_authenticate_success result_data
  | cb_on_authenticate_failure => on_authenticate_failure result_data
  | cb_on_logout_success => on_logout_success result_data
  | cb_on_logout_failure => on_logout_failure result_data
  end.

(** None of the four callbacks has a [current_object] parameter, so the
    callback is called with the result alone. *)
Definition completed_api_call (thread_id : string) (cb : Callback) : M unit :=
  emit (logger INFO) >>
  do st <- get;
  match api_threads st !! thread_id with
  | None => raise (KeyError thread_id)
  | Some thread_info =>
      set_api_threads (delete thread_id (api_threads st)) >>
      user_callback cb (runner_result thread_info)
  end.

(** *** Jobs that fail *)

(** What a slot connected to a job's [failure_signal] does when the signal
    is emitted with [exception].  The controller connects only its failure
    handlers to that signal. *)
Definition failure_slot (s : Slot) (exception : PyException) : M unit :=
  match s with
  | slot_on_sync_failure => on_sync_failure exception
  | slot_on_reply_download_failure => on_reply_download_failure exception
  | slot_on_message_download_failure => on_message_download_failure exception
  | slot_on_file_download_failure => on_file_download_failure exception
  | slot_on_update_star_failure => on_update_star_failure exception
  | slot_on_delete_source_failure => on_delete_source_failure exception
  | slot_on_reply_failure => on_reply_failure exception
  | _ => ret tt
  end.

(** [job.failure_signal.emit(exception)] *)
Definition failure_signal_emit (j : Job.t) (exception : PyException)
  : M unit :=
  for_each (Job.failure_signal j) (fun s => failure_slot s exception).

(** Modelled from the spec: the job classes are not part of this module.  A
    download job whose decrypted bytes fail the integrity check raises the
    checksum-mismatch exception for its own item, that is with the item's
    kind and uuid. *)
Definition checksum_mismatch (j : ApiJob) : option PyException :=
  match j with
  | ReplyDownloadJob uuid => Some (DownloadChecksumMismatchException Reply uuid)
  | MessageDownloadJob uuid =>
      Some (DownloadChecksumMismatchException Message uuid)
  | FileDownloadJob uuid => Some (DownloadChecksumMismatchException File uuid)
  | _ => None
  end.

End Controller.

(** ** Reading a trace *)

(** The jobs handed to the queue, in order. *)
Fixpoint enqueued (l : list Event) : list Job.t :=
  match l with
  | [] => []
  | api_job_queue_enqueue j :: l' => j :: enqueued l'
  | _ :: l' => enqueued l'
  end.

(** The values the [authentication_state] signal was emitted with. *)
Fixpoint authentication_state_emitted (l : list Event) : list bool :=
  match l with
  | [] => []
  | authentication_state_emit b :: l' => b :: authentication_state_emitted l'
  | _ :: l' => authentication_state_emitted l'
  end.

(** The error statuses shown to the user. *)
Fixpoint error_statuses (l : list Event) : list string :=
  match l with
  | [] => []
  | gui_update_error_status message _ _ :: l' => message :: error_statuses l'
  | _ :: l' => error_statuses l'
  end.

Definition is_resume_queues (e : Event) : bool :=
  match e with api_job_queue_resume_queues => true | _ => false end.

Definition is_authentication_state_emit (e : Event) : bool :=
  match e with authentication_state_emit _ => true | _ => false end.

Definition is_enqueue_MetadataSyncJob (e : Event) : bool :=
  match e with
  | api_job_queue_enqueue {| Job.job := MetadataSyncJob |} => true
  | _ => false
  end.

Definition is_synced_emit (e : Event) : bool :=
  match e with
  | sync_events_emit status => String.eqb status "synced"
  | _ => false
  end.

(** Some event satisfying [p] comes strictly before some event satisfying
    [q]. *)
Fixpoint occurs_before (p q : Event -> bool) (l : list Event) : bool :=
  match l with
  | [] => false
  | e :: l' => (p e && List.existsb q l') || occurs_before p q l'
  end.

(** What the sync flag file holds after the writes among the events [l],
    when it held [f] before them. *)
Fixpoint sync_flag_after (f : option Z) (l : list Event) : option Z :=
  match l with
  | [] => f
  | sync_flag_write now :: l' => sync_flag_after (Some now) l'
  | _ :: l' => sync_flag_after f l'
  end.

(** ** Sequences of operations *)

(** The operations that assign the [is_authenticated] property: the login
    (the call, and the two ways its [authenticate] call can end), the
    offline mode, and the logout. *)
Inductive Transition : Type :=
| do_login (new_thread_id username password totp : string)
| do_on_authenticate_success (result : PyValue)
| do_on_authenticate_failure (result : PyValue)
| do_login_offline_mode
| do_logout (new_thread_id : string).

Definition transition (x : Transition) : Controller.M unit :=
  match x with
  | do_login new_thread_id username password totp =>
      Controller.login new_thread_id username password totp
  | do_on_authenticate_success result =>
      Controller.on_authenticate_success result
  | do_on_authenticate_failure result =>
      Controller.on_authenticate_failure result
  | do_login_offline_mode => Controller.login_offline_mode
  | do_logout new_thread_id => Controller.logout new_thread_id
  end.

(** The state after the transitions [l], run one after the other. *)
Fixpoint run (l : list Transition) (st : Controller.t) : Controller.t :=
  match l with
  | [] => st
  | x :: l' => run l' (Controller.exec (transition x) st)
  end.

(** The value of the flag after each of the transitions [l]. *)
Fixpoint flags (l : list Transition) (st : Controller.t) : list bool :=
  match l with
  | [] => []
  | x :: l' =>
      let st' := Controller.exec (transition x) st in
      Controller.is_authenticated st' :: flags l' st'
  end.

(** The actual changes in the history [bs] of a flag that was [b] at first:
    the new value, each time the flag differs from what it was. *)
Fixpoint changes (b : bool) (bs : list bool) : list bool :=
  match bs with
  | [] => []
  | b' :: bs' =>
      if Bool.eqb b b' then changes b' bs' else b' :: changes b' bs'
  end.

(** The job most recently handed to the queue. *)
Definition last_enqueued (st : Controller.t) : option Job.t :=
  last (enqueued (Controller.trace st)).

(** [n] times in a row, the job most recently handed to the queue runs and
    fails the integrity check: its failure signal is emitted with the
    checksum-mismatch exception. *)
Fixpoint checksum_mismatches (n : nat) (st : Controller.t) : Controller.t :=
  match n with
  | O => st
  | S n' =>
      match last_enqueued st with
      | Some j =>
          match Controller.checksum_mismatch (Job.job j) with
          | Some exception =>
              checksum_mismatches n'
                (Controller.exec (Controller.failure_signal_emit j exception) st)
          | None => st
          end
      | None => st
      end
  end.

(** The download job for an item, connected to the handlers of its kind. *)
Definition download_job (object_type : ObjectType) (uuid : string) : Job.t :=
  match object_type with
  | Reply =>
      {| Job.job := ReplyDownloadJob uuid;
         Job.success_signal := [slot_on_reply_download_success];
         Job.failure_signal := [slot_on_reply_download_failure] |}
  | Message =>
      {| Job.job := MessageDownloadJob uuid;
         Job.success_signal := [slot_on_message_download_success];
         Job.failure_signal := [slot_on_message_download_failure] |}
  | File =>
      {| Job.job := FileDownloadJob uuid;
         Job.success_signal := [slot_on_file_download_success];
         Job.failure_signal := [slot_on_file_download_failure] |}
  end.

(** The download jobs for a list of items of one kind, as the queue is
    handed them. *)
Definition download_events (object_type : ObjectType) (items : list Item.t)
  : list Event :=
  List.map
    (fun item =>
       api_job_queue_enqueue (download_job object_type (Item.uuid item)))
    items.

(** The kind and the uuid of the item a download job is for. *)
Definition item_of (j : ApiJob) : option (ObjectType * string) :=
  match j with
  | ReplyDownloadJob uuid => Some (Reply, uuid)
  | MessageDownloadJob uuid => Some (Message, uuid)
  | FileDownloadJob uuid => Some (File, uuid)
  | _ => None
  end.

(** The three download failure handlers, by the kind of job they are
    connected to. *)
Definition on_download_failure (object_type : ObjectType)
  : PyException -> Controller.M unit :=
  match object_type with
  | Reply => Controller.on_reply_download_failure
  | Message => Controller.on_message_download_failure
  | File => Controller.on_file_download_failure
  end.

(** Metadata syncs succeed one after the other and the flag file is
    written each time; [nows] are the times [arrow.now()] gives in the
    success handler of each.  The last-sync marker after each of those
    syncs. *)
Fixpoint markers (missing : File.t -> bool) (nows : list Z)
    (st : Controller.t) : list (option Z) :=
  match nows with
  | [] => []
  | now :: nows' =>
      let st' :=
        Controller.exec
          (Controller.on_sync_success now Controller.flag_written missing)
          st in
      Controller.last_sync st' :: markers missing nows' st'
  end.

(** The marker [b] is at least as recent as [a]; a missing marker is older
    than any. *)
Definition marker_le (a b : option Z) : Prop :=
  match a, b with
  | None, _ => True
  | Some _, None => False
  | Some x, Some y => (x <= y)%Z
  end.

(** The drafts of a session, written or not. *)
Definition drafts (st : Controller.t) : list DraftReply.t :=
  Session.draftreplies (Controller.session st) ++
  Session.new (Controller.session st).

(** What one assignment of [new] to a flag that was [old] must emit. *)
Definition change (old new : bool) : list bool :=
  if Bool.eqb old new then [] else [new].

Definition is_mark_all_pending_drafts_as_failed (e : Event) : bool :=
  match e with storage_mark_all_pending_drafts_as_failed => true | _ => false end.

(** How many times the drafts were swept in a trace. *)
Definition sweeps (l : list Event) : nat :=
  length (List.filter is_mark_all_pending_drafts_as_failed l).

(** Between the states [before] and [after] the drafts were swept once:
    every draft that was PENDING is FAILED, the others are as they were, and
    no draft is PENDING. *)
Definition swept (before after : Controller.t) : Prop :=
  sweeps (Controller.trace after) = S (sweeps (Controller.trace before)) /\
  drafts after = List.map storage.fail_if_pending (drafts before) /\
  Forall (fun d => DraftReply.is_pending d = false) (drafts after).

(** The events of [on_sync_success] between the write of the marker and the
    "synced" signal. *)
Definition between_marker_and_synced (now : Z) (st : Controller.t)
  : list Event :=
  let sources := storage.get_local_sources (Controller.session st) in
  let messages := storage.find_new_messages (Controller.session st) in
  let replies := storage.find_new_replies (Controller.session st) in
  [storage_update_missing_files;
   gui_show_sources (sort_reverse Source.last_updated sources);
   gui_show_sync (Some now)] ++
  (if (0 <? length messages)%nat
   then [gui_update_activity_status "Downloading new messages" 5000]
   else []) ++
  download_events Message messages ++
  download_events Reply replies.

(** ** Concrete states *)

Definition a_pending_draft : DraftReply.t :=
  {| DraftReply.uuid := "R1"; DraftReply.timestamp := 0;
     DraftReply.source_id := 1; DraftReply.journalist_id := None;
     DraftReply.file_counter := 1; DraftReply.content := "hello";
     DraftReply.send_status_id := PENDING |}.

(** A controller as [__init__] leaves it, over a store that holds one
    PENDING draft. *)
Definition not_logged_in_with_pending_draft : Controller.t :=
  Controller.__init__
    {| Session.sources := []; Session.messages := []; Session.replies := [];
       Session.files := [];
       Session.draftreplies := [a_pending_draft]; Session.users := [];
       Session.new := [] |}
    None.

Definition authenticated_handle : API.t :=
  {| API.username := "journalist"; API.token := Some "token";
     API.token_journalist_uuid := Some "J1";
     API.journalist_first_name := "Jo"; API.journalist_last_name := "Doe" |}.

Definition empty_session : Session.t :=
  {| Session.sources := []; Session.messages := []; Session.replies := [];
     Session.files := [];
     Session.draftreplies := []; Session.users := []; Session.new := [] |}.

(** A controller whose [authenticate] call has just succeeded: the handle
    holds a token, the flag is still false. *)
Definition logging_in : Controller.t :=
  {| Controller.is_authenticated := false;
     Controller.api := Some authenticated_handle;
     Controller.session := empty_session;
     Controller.api_threads := ∅;
     Controller.sync_flag := None;
     Controller.trace := [] |}.

Definition a_source (id : Z) (uuid : string) (last_updated : Z) : Source.t :=
  {| Source.id := id; Source.uuid := uuid; Source.last_updated := last_updated;
     Source.is_starred := false; Source.interaction_count := 0 |}.

(** ** The worker thread of a call *)

(** A bound method of an [sdclientapi.API] object, as the thread calls it:
    what the call returns or raises, given the arguments, and the attributes
    it leaves the object it is bound to with.  [authenticate] sets the token
    and the journalist's uuid and names on the object when the server
    accepts the credentials.  The module [sdclientapi] is not part of this
    repository, so both are inputs. *)
Record BoundMethod : Type := {
  gives : list PyValue -> Outcome PyValue;
  leaves : API.t -> API.t
}.

(** The runner that [call_api] creates, as an [APICallRunner]: [callable]
    says what the bound method does when the thread calls it.  [call_api]
    is given no further arguments by [login] and [logout]. *)
Definition runner (callable : list PyValue -> Outcome PyValue)
  : APICallRunner.t :=
  APICallRunner.__init__ callable PyNone [].

(** The object a bound method is bound to. *)
Definition bound_to (api_call_func : Controller.ApiCall) : API.t :=
  match api_call_func with
  | Controller.api_authenticate a => a
  | Controller.api_logout a => a
  end.

Definition rebound (f : API.t -> API.t) (api_call_func : Controller.ApiCall)
  : Controller.ApiCall :=
  match api_call_func with
  | Controller.api_authenticate a => Controller.api_authenticate (f a)
  | Controller.api_logout a => Controller.api_logout (f a)
  end.

#[global] Instance API_eq_dec : EqDecision API.t.
Proof. solve_decision. Defined.

(** Whether [self.api] is the object [a].  Handles are values here, so they
    are told apart by their attributes: [login] binds [authenticate] to the
    object it has just assigned to [self.api], and [logout] assigns [None]
    to [self.api] right after it has dispatched the call. *)
Definition holds (st : Controller.t) (a : API.t) : bool :=
  bool_decide (Controller.api st = Some a).

(** [self.api] once the method of the call [api_call_func] has run: the
    method works on the object it is bound to, which the controller sees
    when [self.api] is that object. *)
Definition api_after (api_call_func : Controller.ApiCall)
    (method : BoundMethod) (st : Controller.t) : option API.t :=
  if holds st (bound_to api_call_func)
  then Some (leaves method (bound_to api_call_func))
  else Controller.api st.

(** The entry of a call once its thread has run: the runner holds the
    result, and its callable is bound to the object as the call left it. *)
Definition with_result (method : BoundMethod) (v : PyValue)
    (info : Controller.ThreadInfo) : Controller.ThreadInfo :=
  {| Controller.runner_api_call :=
       rebound (leaves method) (Controller.runner_api_call info);
     Controller.runner_current_object := Controller.runner_current_object info;
     Controller.runner_result := v;
     Controller.on_call_succeeded := Controller.on_call_succeeded info;
     Controller.on_call_failed := Controller.on_call_failed info |}.

(** What [call_api] connects to the signals of the runner: a lambda that
    calls [completed_api_call] with the success callback to
    [call_succeeded], one with the failure callback to [call_failed],
    nothing to [call_timed_out]. *)
Definition connected (new_thread_id : string)
    (success_callback failure_callback : Controller.Callback)
    (e : APICallRunner.Effect) : Controller.M unit :=
  match e with
  | APICallRunner.emit APICallRunner.call_succeeded =>
      Controller.completed_api_call new_thread_id success_callback
  | APICallRunner.emit APICallRunner.call_failed =>
      Controller.completed_api_call new_thread_id failure_callback
  | _ => Controller.ret tt
  end.

(** The thread started by [call_api] runs: the runner calls the bound
    method, which works on the [API] object it is bound to, and stores what
    comes of the call in its [result], which the entry of [api_threads]
    holds; then the slots connected to the signals it emits run, in the
    order of the emissions.  The runner, and with it the object its
    callable is bound to, is the one of the entry that [call_api] made under
    [new_thread_id]; nothing but the slots below removes that entry. *)
Definition api_thread_run (new_thread_id : string) (method : BoundMethod)
    (success_callback failure_callback : Controller.Callback)
  : Controller.M unit :=
  let r := APICallRunner.call_api (runner (gives method)) in
  Controller.bind Controller.get (fun st =>
  Controller.bind
    (match Controller.api_threads st !! new_thread_id with
     | Some info =>
         Controller.set_api
           (api_after (Controller.runner_api_call info) method st)
     | None => Controller.ret tt
     end)
    (fun _ =>
  Controller.bind
    (Controller.set_api_threads
       (alter (with_result method (APICallRunner.result r)) new_thread_id
          (Controller.api_threads st)))
    (fun _ =>
  Controller.for_each (APICallRunner.effects r)
    (connected new_thread_id success_callback failure_callback)))).

(** The callback that a call ends in, and what it is called with. *)
Definition callback_of (o : Outcome PyValue)
    (success_callback failure_callback : Controller.Callback)
  : Controller.Callback :=
  match o with
  | Returned _ => success_callback
  | Raised _ => failure_callback
  end.

Definition result_of (o : Outcome PyValue) : PyValue :=
  match o with
  | Returned v => v
  | Raised ex => PyExc ex
  end.

(** The state [st] with the registry of threads replaced. *)
Definition with_api_threads (m : gmap string Controller.ThreadInfo)
    (st : Controller.t) : Controller.t :=
  Controller.exec (Controller.set_api_threads m) st.

(** The state [st] with [self.api] replaced. *)
Definition with_api (a : option API.t) (st : Controller.t) : Controller.t :=
  Controller.exec (Controller.set_api a) st.

(** The metadata sync job, as [sync_api] connects it. *)
Definition sync_job : Job.t :=
  {| Job.job := MetadataSyncJob;
     Job.success_signal := [slot_on_sync_success];
     Job.failure_signal := [slot_on_sync_failure] |}.

(** The states [st] and [st'] differ in their traces at most. *)
Definition same_but_trace (st st' : Controller.t) : Prop :=
  Controller.is_authenticated st' = Controller.is_authenticated st /\
  Controller.api st' = Controller.api st /\
  Controller.session st' = Controller.session st /\
  Controller.api_threads st' = Controller.api_threads st /\
  Controller.sync_flag st' = Controller.sync_flag st.

(** The threads started in a trace. *)
Fixpoint threads_started (l : list Event) : list string :=
  match l with
  | [] => []
  | thread_start thread_id :: l' => thread_id :: threads_started l'
  | _ :: l' => threads_started l'
  end.

(** The reply uuids the [reply_failed] signal was emitted with. *)
Fixpoint reply_failed_emitted (l : list Event) : list string :=
  match l with
  | [] => []
  | reply_failed_emit reply_uuid :: l' => reply_uuid :: reply_failed_emitted l'
  | _ :: l' => reply_failed_emitted l'
  end.

(** The entry [call_api] makes for a call. *)
Definition thread_info (api_call_func : Controller.ApiCall)
    (success_callback failure_callback : Controller.Callback)
  : Controller.ThreadInfo :=
  {| Controller.runner_api_call := api_call_func;
     Controller.runner_current_object := PyNone;
     Controller.runner_result := PyNone;
     Controller.on_call_succeeded := success_callback;
     Controller.on_call_failed := failure_callback |}.

(** An [authenticate] call that the server rejects: it raises, and leaves
    the object as it was. *)
Definition rejected : BoundMethod :=
  {| gives := fun _ => Raised (OtherException "403");
     leaves := fun a => a |}.

(** An [authenticate] call that the server accepts: it returns [True], and
    the object holds the token and the journalist the server answered
    with. *)
Definition accepted (token uuid first_name last_name : string) : BoundMethod :=
  {| gives := fun _ => Returned (PyBool true);
     leaves := fun a =>
       {| API.username := API.username a;
          API.token := Some token;
          API.token_journalist_uuid := Some uuid;
          API.journalist_first_name := first_name;
          API.journalist_last_name := last_name |} |}.

(** The slots that are failure handlers of the controller. *)
Definition is_failure_handler (s : Slot) : bool :=
  match s with
  | slot_on_sync_failure
  | slot_on_reply_download_failure
  | slot_on_message_download_failure
  | slot_on_file_download_failure
  | slot_on_update_star_failure
  | slot_on_delete_source_failure
  | slot_on_reply_failure => true
  | _ => false
  end.

(** The job [send_reply] hands to the queue. *)
Definition reply_job (source_uuid reply_uuid message : string) : Job.t :=
  {| Job.job := SendReplyJob source_uuid reply_uuid message;
     Job.success_signal := [slot_on_reply_success];
     Job.failure_signal := [slot_on_reply_failure] |}.

(** The exception a [SendReplyJob] fails with, for the reply it sends. *)
Definition reply_error (timeout : bool) (reply_uuid : string) : PyException :=
  if timeout then SendReplyJobTimeoutError reply_uuid
  else SendReplyJobError reply_uuid.

(** The download jobs for a list of items of one kind. *)
Definition download_jobs (object_type : ObjectType) (items : list Item.t)
  : list Job.t :=
  List.map (fun item => download_job object_type (Item.uuid item)) items.

(** A store with one source, and a controller logged in over it. *)
Definition one_source_session : Session.t :=
  {| Session.sources := [a_source 1 "S1" 10]; Session.messages := [];
     Session.replies := []; Session.files := [];
     Session.draftreplies := []; Session.users := [];
     Session.new := [] |}.

Definition logged_in : Controller.t :=
  {| Controller.is_authenticated := true;
     Controller.api := Some authenticated_handle;
     Controller.session := one_source_session;
     Controller.api_threads := ∅;
     Controller.sync_flag := None;
     Controller.trace := [] |}.

(** ** Paths

    [os.path.join] and [os.path.splitext] as [posixpath] defines them, for
    two components and on the characters of the path. *)

Module os_path.
Import Stdlib.Strings.Ascii.

(** [s.rfind(c)]: the index of the last [c] in [s], or -1. *)
Fixpoint rfind_from (c : Ascii.ascii) (s : list Ascii.ascii) (i acc : Z) : Z :=
  match s with
  | [] => acc
  | x :: s' => rfind_from c s' (i + 1) (if Ascii.eqb x c then i else acc)
  end.

Definition rfind (c : Ascii.ascii) (s : list Ascii.ascii) : Z :=
  rfind_from c s 0 (-1).

Definition is_not_dot (x : Ascii.ascii) : bool := negb (Ascii.eqb x "."%char).

(** [p[i:j]] for [0 <= i]. *)
Definition slice (i j : Z) (p : list Ascii.ascii) : list Ascii.ascii :=
  List.firstn (Z.to_nat (j - i)) (List.skipn (Z.to_nat i) p).

(** The extension starts at the last dot of the last component, unless
    that component has nothing but dots before it. *)
Definition splitext_chars (p : list Ascii.ascii)
  : list Ascii.ascii * list Ascii.ascii :=
  let sepIndex := rfind "/"%char p in
  let dotIndex := rfind "."%char p in
  if (sepIndex <? dotIndex)%Z
     && List.existsb is_not_dot (slice (sepIndex + 1) dotIndex p)
  then (List.firstn (Z.to_nat dotIndex) p, List.skipn (Z.to_nat dotIndex) p)
  else (p, []).

Definition splitext (p : string) : string * string :=
  let (root, ext) := splitext_chars (String.list_ascii_of_string p) in
  (String.string_of_list_ascii root, String.string_of_list_ascii ext).

Definition startswith_sep (s : string) : bool :=
  match s with
  | String.String c _ => Ascii.eqb c "/"%char
  | String.EmptyString => false
  end.

Fixpoint endswith_sep (s : string) : bool :=
  match s with
  | String.EmptyString => false
  | String.String c String.EmptyString => Ascii.eqb c "/"%char
  | String.String _ s' => endswith_sep s'
  end.

Definition join (a b : string) : string :=
  if startswith_sep b then b
  else if String.eqb a "" || endswith_sep a then a +:+ b
  else a +:+ "/" +:+ b.

(** The path has no separator; the path has a character that is not a
    dot. *)
Definition has_no_sep (s : string) : bool :=
  List.forallb (fun c => negb (Ascii.eqb c "/"%char))
    (String.list_ascii_of_string s).

Definition has_a_name (s : string) : bool :=
  List.existsb is_not_dot (String.list_ascii_of_string s).

End os_path.

(** ** Files on disk *)

(** What the file methods rest on and this module does not define: the
    file system behind [os.path.exists], [os.link] and [os.remove], and the
    store behind [storage.get_file].  [os_link] and [os_remove] give the
    file system they leave, or raise and leave it as it was;
    [storage_get_file] gives the row [storage.get_file] finds for a uuid,
    refreshed, or raises. *)
Class Outside : Type := {
  FS : Type;
  os_path_exists : string -> FS -> bool;
  os_link : string -> string -> FS -> Outcome FS;
  os_remove : string -> FS -> Outcome FS;
  storage_get_file : string -> Outcome File.t
}.

Module Files.

(** What the file methods do to the outside, in order. *)
Inductive Action : Type :=
| link (src dst : string)
| remove (path : string)
| update_missing_files
| file_missing_emit (uuid : string)
| begin_preflight_check_emit
| begin_usb_export_emit (filepaths : list string) (passphrase : string)
| begin_print_emit (filepaths : list string)
| process_start (command : string) (args : list string)
| log (level : LogLevel).

Section Methods.
Context {outside : Outside}.

(** The attributes of the controller the file methods read, the file
    system, and the calls that have returned so far, in order. *)
Record t : Type := {
  data_dir : string;
  qubes : bool;
  fs : FS;
  actions : list Action
}.

Definition M (A : Type) : Type := t -> t * Outcome A.

Definition ret {A : Type} (a : A) : M A := fun st => (st, Returned a).

Definition bind {A B : Type} (m : M A) (k : A -> M B) : M B :=
  fun st =>
    match m st with
    | (st', Returned a) => k a st'
    | (st', Raised ex) => (st', Raised ex)
    end.

Definition get : M t := fun st => (st, Returned st).

Definition lift {A : Type} (o : Outcome A) : M A := fun st => (st, o).

Definition act (a : Action) : M unit :=
  fun st =>
    ({| data_dir := data_dir st; qubes := qubes st; fs := fs st;
        actions := actions st ++ [a] |}, Returned tt).

(** A call that changes the file system, or raises. *)
Definition on_fs (f : FS -> Outcome FS) (a : Action) : M unit :=
  fun st =>
    match f (fs st) with
    | Returned fs' =>
        ({| data_dir := data_dir st; qubes := qubes st; fs := fs';
            actions := actions st ++ [a] |}, Returned tt)
    | Raised ex => (st, Raised ex)
    end.

Definition exec {A : Type} (m : M A) (st : t) : t := fst (m st).
Definition outcome {A : Type} (m : M A) (st : t) : Outcome A := snd (m st).

(** [os.path.splitext(os.path.splitext(filename)[0])[0]] *)
Definition fn_no_ext (filename : string) : string :=
  fst (os_path.splitext (fst (os_path.splitext filename))).

Definition get_file (file_uuid : string) : M File.t :=
  lift (storage_get_file file_uuid).

Definition downloaded_file_exists (file_uuid : string) : M bool :=
  bind (get_file file_uuid) (fun file =>
  bind get (fun st =>
  let filepath := os_path.join (data_dir st) (fn_no_ext (File.filename file)) in
  if negb (os_path_exists filepath (fs st)) then
    bind (act (log DEBUG)) (fun _ =>
    bind (act update_missing_files) (fun _ =>
    bind (act (file_missing_emit (File.uuid file))) (fun _ =>
    ret false)))
  else ret true)).

Fixpoint cleanup_hardlinked_file (filepaths : list string) : M unit :=
  match filepaths with
  | [] => ret tt
  | filepath :: filepaths' =>
      bind get (fun st =>
      bind (if os_path_exists filepath (fs st)
            then on_fs (os_remove filepath) (remove filepath)
            else ret tt) (fun _ =>
      cleanup_hardlinked_file filepaths'))
  end.

Definition get_path_to_file_with_original_name
    (file_dir filename filename_orig : string) : M string :=
  let path_to_file_with_original_name := os_path.join file_dir filename_orig in
  bind get (fun st =>
  bind (if negb (os_path_exists path_to_file_with_original_name (fs st))
        then
          let filepath := os_path.join file_dir (fn_no_ext filename) in
          on_fs (os_link filepath path_to_file_with_original_name)
            (link filepath path_to_file_with_original_name)
        else ret tt) (fun _ =>
  ret path_to_file_with_original_name)).

Definition on_file_open (file_uuid : string) : M unit :=
  bind (get_file file_uuid) (fun file =>
  bind (act (log INFO)) (fun _ =>
  bind (downloaded_file_exists (File.uuid file)) (fun exists_ =>
  if negb exists_ then ret tt
  else
    bind get (fun st =>
    if negb (qubes st) then ret tt
    else
      bind (get_path_to_file_with_original_name (data_dir st)
              (File.filename file) (File.original_filename file))
        (fun path_to_file_with_original_name =>
      act (process_start "qvm-open-in-vm"
             ["$dispvm:sd-viewer"; path_to_file_with_original_name])))))).

Definition run_export_preflight_checks : M unit :=
  bind (act (log INFO)) (fun _ =>
  bind get (fun st =>
  if negb (qubes st) then ret tt
  else act begin_preflight_check_emit)).

Definition export_file_to_usb_drive (file_uuid passphrase : string) : M unit :=
  bind (get_file file_uuid) (fun file =>
  bind (act (log INFO)) (fun _ =>
  bind (downloaded_file_exists (File.uuid file)) (fun exists_ =>
  if negb exists_ then ret tt
  else
    bind get (fun st =>
    if negb (qubes st) then ret tt
    else
      bind (get_path_to_file_with_original_name (data_dir st)
              (File.filename file) (File.original_filename file))
        (fun path_to_file_with_original_name =>
      act (begin_usb_export_emit [path_to_file_with_original_name]
             passphrase)))))).

Definition print_file (file_uuid : string) : M unit :=
  bind (get_file file_uuid) (fun file =>
  bind (act (log INFO)) (fun _ =>
  bind (downloaded_file_exists (File.uuid file)) (fun exists_ =>
  if negb exists_ then ret tt
  else
    bind get (fun st =>
    if negb (qubes st) then ret tt
    else
      bind (get_path_to_file_with_original_name (data_dir st)
              (File.filename file) (File.original_filename file))
        (fun path_to_file_with_original_name =>
      act (begin_print_emit [path_to_file_with_original_name])))))).

End Methods.

(** Reading a list of actions. *)
Definition is_link (a : Action) : bool :=
  match a with link _ _ => true | _ => false end.

Definition is_hand_over (a : Action) : bool :=
  match a with
  | begin_preflight_check_emit | begin_usb_export_emit _ _
  | begin_print_emit _ | process_start _ _ => true
  | _ => false
  end.

Fixpoint removed (l : list Action) : list string :=
  match l with
  | [] => []
  | remove path :: l' => path :: removed l'
  | _ :: l' => removed l'
  end.

End Files.

(** A file system of regular files, each path with the number of its
    inode, and a store that holds the file "F1". *)
Definition regular_files : Outside :=
  {| FS := gmap string nat;
     os_path_exists path fs :=
       match fs !! path with Some _ => true | None => false end;
     os_link src dst fs :=
       match fs !! src, fs !! dst with
       | None, _ => Raised (OtherException "FileNotFoundError")
       | Some _, Some _ => Raised (OtherException "FileExistsError")
       | Some inode, None => Returned (<[dst := inode]> fs)
       end;
     os_remove path fs :=
       match fs !! path with
       | None => Raised (OtherException "FileNotFoundError")
       | Some _ => Returned (delete path fs)
       end;
     storage_get_file uuid :=
       if String.eqb uuid "F1"
       then Returned {| File.uuid := "F1"; File.filename := "1-doc.gz.gpg";
                        File.original_filename := "report.pdf" |}
       else Raised NoResultFound |}.

(** A controller in Qubes whose data directory holds the downloaded file
    "F1", and one whose data directory is empty. *)
Definition with_F1_on_disk : @Files.t regular_files :=
  {| Files.data_dir := "/data"; Files.qubes := true;
     Files.fs := {["/data/1-doc" := 7%nat]}; Files.actions := [] |}.

Definition with_empty_disk : @Files.t regular_files :=
  {| Files.data_dir := "/data"; Files.qubes := true;
     Files.fs := ∅; Files.actions := [] |}.

(** ** Running a method

    [step] unfolds the methods and the monad on a state whose fields are
    known, down to the state and the outcome they leave. *)
Ltac step :=
  cbv [Controller.exec Controller.outcome
       Controller.bind Controller.ret Controller.raise Controller.get
       Controller.lift Controller.emit Controller.set___is_authenticated
       Controller.set_api Controller.set_session Controller.set_api_threads
       Controller.set_sync_flag
       Controller.is_authenticated_setter Controller.call_api
       Controller.on_queue_paused Controller.resume_queues
       Controller.on_action_requiring_login Controller.sync_api
       Controller.authenticated
       Controller.update_sync Controller.update_sources Controller.set_status
       Controller._submit_download_job
       Controller.on_sync_success Controller.on_sync_failure
       Controller.update_star Controller.delete_source
       Controller.login Controller.logout Controller.login_offline_mode
       Controller.on_authenticate_success Controller.on_authenticate_failure
       Controller.on_message_download_failure Controller.on_reply_download_failure
       Controller.on_file_download_failure Controller.send_reply
       Controller.last_sync storage.update_and_get_user
       Controller.is_authenticated Controller.api Controller.session
       Controller.api_threads Controller.sync_flag Controller.trace
       on_download_failure download_job negb Bool.eqb fst snd].

(** [run_all] is [step] with the callbacks of the calls, the handlers of
    the replies and the remaining job failure handlers. *)
Ltac run_all :=
  cbv [Controller.exec Controller.outcome
       Controller.bind Controller.ret Controller.raise Controller.get
       Controller.lift Controller.emit Controller.set___is_authenticated
       Controller.set_api Controller.set_session Controller.set_api_threads
       Controller.set_sync_flag Controller.append
       Controller.is_authenticated_setter Controller.call_api
       Controller.on_queue_paused Controller.resume_queues
       Controller.on_action_requiring_login Controller.sync_api
       Controller.authenticated
       Controller.update_sync Controller.update_sources Controller.set_status
       Controller._submit_download_job
       Controller.on_sync_success Controller.on_sync_failure
       Controller.update_star Controller.delete_source
       Controller.login Controller.logout Controller.login_offline_mode
       Controller.on_authenticate_success Controller.on_authenticate_failure
       Controller.on_message_download_failure Controller.on_reply_download_failure
       Controller.on_file_download_failure Controller.send_reply
       Controller.on_submission_download
       Controller.on_reply_success Controller.on_reply_failure
       Controller.on_logout_success Controller.on_logout_failure
       Controller.on_update_star_success Controller.on_update_star_failure
       Controller.on_delete_source_failure
       Controller.user_callback Controller.completed_api_call
       Controller.failure_slot
       Controller.last_sync storage.update_and_get_user
       Controller.is_authenticated Controller.api Controller.session
       Controller.api_threads Controller.sync_flag Controller.trace
       with_api_threads sync_job
       on_download_failure download_job negb Bool.eqb fst snd].

(** [run_files] unfolds the file methods and their monad. *)
Ltac run_files :=
  cbv [Files.exec Files.outcome Files.bind Files.ret Files.get Files.lift
       Files.act Files.on_fs Files.get_file Files.downloaded_file_exists
       Files.get_path_to_file_with_original_name Files.on_file_open
       Files.run_export_preflight_checks Files.export_file_to_usb_drive
       Files.print_file
       Files.data_dir Files.qubes Files.fs Files.actions negb fst snd].

(** * Theorems *)

(** ** The call runner *)

(** C5: every run of [APICallRunner.call_api] reports exactly one of
    succeeded and failed.  When the callable returns, the value is stored in
    [result] and only [call_succeeded] is emitted.  When it raises, the
    exception is logged and stored in [result] and [call_failed] is emitted;
    for a [RequestTimeoutError], [call_timed_out] is emitted as well, before
    [call_failed]. *)
Theorem call_api_reports_one_outcome (r : APICallRunner.t) :
  let r' := APICallRunner.call_api r in
  exists new : list APICallRunner.Effect,
    APICallRunner.effects r' = APICallRunner.effects r ++ new /\
    (APICallRunner.emitted APICallRunner.call_succeeded new +
     APICallRunner.emitted APICallRunner.call_failed new = 1)%nat /\
    match APICallRunner.api_call r (APICallRunner.args r) with
    | Returned v =>
        APICallRunner.result r' = v /\
        new = [APICallRunner.emit APICallRunner.call_succeeded]
    | Raised ex =>
        APICallRunner.result r' = PyExc ex /\
        new =
          (if isinstance_RequestTimeoutError ex
           then [APICallRunner.emit APICallRunner.call_timed_out] else []) ++
          [APICallRunner.logger_error ex;
           APICallRunner.emit APICallRunner.call_failed]
    end.
Proof.
  unfold APICallRunner.call_api.
  destruct (APICallRunner.api_call r (APICallRunner.args r)) as [v | ex]; cbn.
  - exists [APICallRunner.emit APICallRunner.call_succeeded]. auto.
  - destruct (isinstance_RequestTimeoutError ex); cbn.
    + exists [APICallRunner.emit APICallRunner.call_timed_out;
              APICallRunner.logger_error ex;
              APICallRunner.emit APICallRunner.call_failed].
      rewrite <- !app_assoc. auto.
    + exists [APICallRunner.logger_error ex;
              APICallRunner.emit APICallRunner.call_failed].
      rewrite <- !app_assoc. auto.
Qed.

(** ** Traces are read left to right *)

Lemma enqueued_app (l1 l2 : list Event) :
  enqueued (l1 ++ l2) = enqueued l1 ++ enqueued l2.
Proof.
  induction l1 as [|e l1 IH]; [reflexivity|].
  destruct e; cbn; rewrite ?IH; reflexivity.
Qed.

Lemma error_statuses_app (l1 l2 : list Event) :
  error_statuses (l1 ++ l2) = error_statuses l1 ++ error_statuses l2.
Proof.
  induction l1 as [|e l1 IH]; [reflexivity|].
  destruct e; cbn; rewrite ?IH; reflexivity.
Qed.

Lemma authentication_state_emitted_app (l1 l2 : list Event) :
  authentication_state_emitted (l1 ++ l2) =
  authentication_state_emitted l1 ++ authentication_state_emitted l2.
Proof.
  induction l1 as [|e l1 IH]; [reflexivity|].
  destruct e; cbn; rewrite ?IH; reflexivity.
Qed.

(** ** Failure of the metadata sync *)

(** C2: [on_sync_failure] logs and shows the persistent, retryable "server
    cannot be reached" status, and does nothing else: it returns without
    calling [resume_queues], although its docstring says that it resumes the
    queues.  The trace gains no [resume_queues] call. *)
Theorem on_sync_failure_does_not_resume (result : PyException)
    (st : Controller.t) :
  let st' := Controller.exec (Controller.on_sync_failure result) st in
  Controller.outcome (Controller.on_sync_failure result) st = Returned tt /\
  Controller.trace st' =
    Controller.trace st ++
      [logger DEBUG;
       gui_update_error_status "The SecureDrop server cannot be reached."
         (Some 0%Z) (Some true)] /\
  List.filter is_resume_queues (Controller.trace st') =
    List.filter is_resume_queues (Controller.trace st).
Proof.
  destruct st as [flag handle store threads marker events].
  step. rewrite <- !app_assoc. repeat split.
  rewrite List.filter_app. cbn. apply app_nil_r.
Qed.

(** ** Starring and deleting a source *)

(** C9: without an API handle, [update_star] and [delete_source] each show
    the "must sign in" status and return without handing any job to the
    queue; with a handle, each hands exactly one job to the queue, an
    [UpdateStarJob] and a [DeleteSourceJob] for the source, and shows no
    error status. *)
Theorem update_star_and_delete_source_need_api (source : Source.t)
    (callback : string) (st : Controller.t) :
  let star := Controller.update_star source callback in
  let delete := Controller.delete_source source in
  let must_sign_in :=
    gui_update_error_status "You must sign in to perform this action."
      None None in
  Controller.outcome star st = Returned tt /\
  Controller.outcome delete st = Returned tt /\
  match Controller.api st with
  | None =>
      Controller.trace (Controller.exec star st) =
        Controller.trace st ++ [must_sign_in] /\
      Controller.trace (Controller.exec delete st) =
        Controller.trace st ++ [must_sign_in] /\
      enqueued (Controller.trace (Controller.exec star st)) =
        enqueued (Controller.trace st) /\
      enqueued (Controller.trace (Controller.exec delete st)) =
        enqueued (Controller.trace st)
  | Some _ =>
      enqueued (Controller.trace (Controller.exec star st)) =
        enqueued (Controller.trace st) ++
          [{| Job.job := UpdateStarJob (Source.uuid source)
                           (Source.is_starred source);
              Job.success_signal :=
                [slot_on_update_star_success; slot_callback callback];
              Job.failure_signal := [slot_on_update_star_failure] |}] /\
      enqueued (Controller.trace (Controller.exec delete st)) =
        enqueued (Controller.trace st) ++
          [{| Job.job := DeleteSourceJob (Source.uuid source);
              Job.success_signal := [slot_on_delete_source_success];
              Job.failure_signal := [slot_on_delete_source_failure] |}] /\
      error_statuses (Controller.trace (Controller.exec star st)) =
        error_statuses (Controller.trace st) /\
      error_statuses (Controller.trace (Controller.exec delete st)) =
        error_statuses (Controller.trace st)
  end.
Proof.
  destruct st as [flag [handle|] store threads marker events]; step;
    rewrite ?enqueued_app, ?error_statuses_app; cbn; rewrite ?app_nil_r;
    repeat split.
Qed.

(** ** Sending a reply *)

(** C10: [send_reply] reads [self.api.token_journalist_uuid] while it builds
    the draft: with no API handle it raises (the query for the source raises
    first when that fails) and leaves the state as it was, so no "must sign
    in" status is shown, no draft is stored and no job is handed to the
    queue.  With a handle and the source found, the PENDING draft is added
    and committed, and only then is the [SendReplyJob] handed to the
    queue. *)
Theorem send_reply_needs_api (utcnow : Z)
    (source_uuid reply_uuid message : string) (st : Controller.t) :
  let send := Controller.send_reply utcnow source_uuid reply_uuid message in
  let st' := Controller.exec send st in
  let found :=
    Session.one
      (Session.query_Source_filter_by_uuid source_uuid (Controller.session st)) in
  match Controller.api st, found with
  | None, Returned _ =>
      Controller.outcome send st =
        Raised (AttributeError "token_journalist_uuid") /\
      st' = st
  | _, Raised ex =>
      Controller.outcome send st = Raised ex /\ st' = st
  | Some a, Returned source =>
      let draft_reply :=
        {| DraftReply.uuid := reply_uuid;
           DraftReply.timestamp := utcnow;
           DraftReply.source_id := Source.id source;
           DraftReply.journalist_id := API.token_journalist_uuid a;
           DraftReply.file_counter := Source.interaction_count source;
           DraftReply.content := message;
           DraftReply.send_status_id := PENDING |} in
      Controller.outcome send st = Returned tt /\
      Controller.trace st' =
        Controller.trace st ++
          [session_add draft_reply;
           session_commit;
           api_job_queue_enqueue
             {| Job.job := SendReplyJob source_uuid reply_uuid message;
                Job.success_signal := [slot_on_reply_success];
                Job.failure_signal := [slot_on_reply_failure] |}] /\
      Controller.session st' =
        Session.commit (Session.add draft_reply (Controller.session st)) /\
      In draft_reply (Session.draftreplies (Controller.session st'))
  end.
Proof.
  destruct st as [flag handle store threads marker events]. step.
  destruct (Session.one (Session.query_Source_filter_by_uuid source_uuid store))
    as [source | ex]; destruct handle as [a|]; cbn; auto.
  rewrite <- !app_assoc. repeat split.
  apply in_or_app. right. apply in_or_app. right. left. reflexivity.
Qed.

(** ** The sweep of the pending drafts *)

Lemma sweeps_app (l1 l2 : list Event) :
  sweeps (l1 ++ l2) = (sweeps l1 + sweeps l2)%nat.
Proof. unfold sweeps. rewrite List.filter_app. apply length_app. Qed.

Lemma fail_if_pending_not_pending (l : list DraftReply.t) :
  Forall (fun d => DraftReply.is_pending d = false)
    (List.map storage.fail_if_pending l).
Proof.
  induction l as [|d l IH]; constructor; [|exact IH].
  unfold storage.fail_if_pending.
  destruct (DraftReply.is_pending d) eqn:E; [reflexivity | exact E].
Qed.

Lemma mark_all_pending_drafts_as_failed_drafts (s : Session.t) :
  Session.draftreplies (storage.mark_all_pending_drafts_as_failed s) ++
  Session.new (storage.mark_all_pending_drafts_as_failed s) =
  List.map storage.fail_if_pending (Session.draftreplies s ++ Session.new s).
Proof. cbn. apply app_nil_r. Qed.

(** What it takes for the drafts to have been swept once. *)
Lemma swept_intro (st st' : Controller.t) (l1 l2 : list Event) :
  Controller.session st' =
    storage.mark_all_pending_drafts_as_failed (Controller.session st) ->
  Controller.trace st' =
    Controller.trace st ++
    l1 ++ storage_mark_all_pending_drafts_as_failed :: l2 ->
  sweeps l1 = O -> sweeps l2 = O ->
  swept st st'.
Proof.
  intros Hsession Htrace H1 H2. unfold swept, drafts.
  rewrite Hsession, Htrace, mark_all_pending_drafts_as_failed_drafts.
  split; [|split; [reflexivity | apply fail_if_pending_not_pending]].
  rewrite !sweeps_app, H1.
  change (sweeps (storage_mark_all_pending_drafts_as_failed :: l2))
    with (S (sweeps l2)).
  rewrite H2. lia.
Qed.

(** C4, as it is stated, fails for [logout]: a controller that holds no API
    handle raises at [self.api.logout], before the sweep, and the PENDING
    draft stays PENDING. *)
Lemma logout_without_api_sweeps_nothing :
  Controller.outcome (Controller.logout "T1")
    not_logged_in_with_pending_draft = Raised (AttributeError "logout") /\
  ~ swept not_logged_in_with_pending_draft
      (Controller.exec (Controller.logout "T1")
         not_logged_in_with_pending_draft).
Proof.
  split; [reflexivity|].
  intros (_ & H & _). vm_compute in H. discriminate H.
Qed.

(** C4, amended: [login] and [login_offline_mode] always sweep the drafts,
    and [logout] does when the controller holds an API handle: when the call
    returns, [mark_all_pending_drafts_as_failed] has run once, every draft
    that was PENDING is FAILED and none is PENDING.  Without a handle
    [logout] raises and changes nothing. *)
Theorem pending_drafts_swept (st : Controller.t)
    (new_thread_id username password totp : string) :
  swept st
    (Controller.exec
       (Controller.login new_thread_id username password totp) st) /\
  swept st (Controller.exec Controller.login_offline_mode st) /\
  match Controller.api st with
  | Some _ => swept st (Controller.exec (Controller.logout new_thread_id) st)
  | None =>
      Controller.outcome (Controller.logout new_thread_id) st =
        Raised (AttributeError "logout") /\
      Controller.exec (Controller.logout new_thread_id) st = st
  end.
Proof.
  destruct st as [flag handle store threads marker events].
  split; [|split].
  - apply (swept_intro _ _ [] [thread_start new_thread_id]);
      [reflexivity | step; rewrite <- !app_assoc; reflexivity
      | reflexivity | reflexivity].
  - destruct flag.
    + eapply (swept_intro _ _ [gui_hide_login; gui_show_main_window None]
                [authentication_state_emit false; _; _]);
        [reflexivity | step; rewrite <- !app_assoc; reflexivity
        | reflexivity | reflexivity].
    + eapply (swept_intro _ _ [gui_hide_login; gui_show_main_window None]
                [_; _]);
        [reflexivity | step; rewrite <- !app_assoc; reflexivity
        | reflexivity | reflexivity].
  - destruct handle as [a|]; [|split; reflexivity].
    destruct flag.
    + eapply (swept_intro _ _ [thread_start new_thread_id; api_job_queue_logout]
                [gui_logout; authentication_state_emit false]);
        [reflexivity | step; rewrite <- !app_assoc; reflexivity
        | reflexivity | reflexivity].
    + eapply (swept_intro _ _ [thread_start new_thread_id; api_job_queue_logout]
                [gui_logout]);
        [reflexivity | step; rewrite <- !app_assoc; reflexivity
        | reflexivity | reflexivity].
Qed.

(** ** A successful authentication *)

(** C7, as it is stated, fails: in the trace of [on_authenticate_success]
    no [authentication_state] emission comes before the enqueuing of the
    [MetadataSyncJob]. *)
Lemma sync_enqueued_before_state_change :
  occurs_before is_authentication_state_emit is_enqueue_MetadataSyncJob
    (Controller.trace
       (Controller.exec (Controller.on_authenticate_success PyNone)
          logging_in)) <> true.
Proof. vm_compute. discriminate. Qed.

(** C7, amended: when the handle holds a token and the flag is false,
    [on_authenticate_success] first hands the [MetadataSyncJob] of the
    immediate sync to the queue and then emits [authentication_state(True)],
    exactly once; the enqueuing comes before the notification, and the
    queues are resumed last. *)
Theorem on_authenticate_success_syncs_then_notifies (result : PyValue)
    (st : Controller.t) (a : API.t) (token : string)
    (Hapi : Controller.api st = Some a)
    (Htoken : API.token a = Some token)
    (Hflag : Controller.is_authenticated st = false) :
  let st' := Controller.exec (Controller.on_authenticate_success result) st in
  let user :=
    {| User.uuid := API.token_journalist_uuid a;
       User.username := API.username a;
       User.firstname := API.journalist_first_name a;
       User.lastname := API.journalist_last_name a |} in
  let new :=
    [logger INFO; gui_hide_login; storage_update_and_get_user user;
     gui_show_main_window (Some user); api_job_queue_login a;
     logger DEBUG; sync_events_emit "syncing"; logger DEBUG;
     api_job_queue_enqueue
       {| Job.job := MetadataSyncJob;
          Job.success_signal := [slot_on_sync_success];
          Job.failure_signal := [slot_on_sync_failure] |};
     logger DEBUG;
     authentication_state_emit true;
     api_job_queue_resume_queues] in
  Controller.outcome (Controller.on_authenticate_success result) st =
    Returned tt /\
  Controller.trace st' = Controller.trace st ++ new /\
  Controller.is_authenticated st' = true /\
  authentication_state_emitted new = [true] /\
  occurs_before is_enqueue_MetadataSyncJob is_authentication_state_emit new =
    true /\
  occurs_before is_authentication_state_emit is_enqueue_MetadataSyncJob new =
    false.
Proof.
  destruct st as [flag handle store threads marker events].
  cbn in Hapi, Hflag. subst handle flag.
  step. rewrite Htoken. step. rewrite <- !app_assoc. repeat split.
Qed.

(** The theorem at the state [logging_in]. *)
Lemma on_authenticate_success_syncs_then_notifies_witness :
  Controller.api logging_in = Some authenticated_handle /\
  API.token authenticated_handle = Some "token" /\
  Controller.is_authenticated logging_in = false /\
  Controller.is_authenticated
    (Controller.exec (Controller.on_authenticate_success PyNone) logging_in) =
    true.
Proof.
  repeat (split; [reflexivity|]).
  apply (on_authenticate_success_syncs_then_notifies PyNone logging_in
           authenticated_handle "token"); reflexivity.
Defined.

(** ** The authentication flag *)

Lemma setter_emits_on_change (b : bool) (st : Controller.t) :
  let st' := Controller.exec (Controller.is_authenticated_setter b) st in
  Controller.is_authenticated st' = b /\
  authentication_state_emitted (Controller.trace st') =
    authentication_state_emitted (Controller.trace st) ++
    change (Controller.is_authenticated st) b.
Proof.
  destruct st as [flag handle store threads marker events].
  destruct flag, b; step; rewrite ?authentication_state_emitted_app; cbn;
    rewrite ?app_nil_r; split; reflexivity.
Qed.

(** Every transition emits the signal once if it changes the flag, and not
    at all if it does not. *)
Lemma transition_emits_on_change (x : Transition) (st : Controller.t) :
  let st' := Controller.exec (transition x) st in
  authentication_state_emitted (Controller.trace st') =
    authentication_state_emitted (Controller.trace st) ++
    change (Controller.is_authenticated st) (Controller.is_authenticated st').
Proof.
  destruct st as [flag handle store threads marker events].
  destruct x as [tid username password totp | result | result | | tid];
    cbn [transition].
  - step. rewrite !authentication_state_emitted_app. cbn.
    destruct flag; cbn; rewrite ?app_nil_r; reflexivity.
  - destruct handle as [a|]; [destruct (API.token a) eqn:Htoken|]; step;
      rewrite ?Htoken; step; destruct flag; step;
      rewrite ?authentication_state_emitted_app; cbn;
      rewrite ?app_nil_r; reflexivity.
  - step. rewrite !authentication_state_emitted_app. cbn.
    destruct flag; cbn; rewrite ?app_nil_r; reflexivity.
  - destruct flag; step; destruct (storage.get_local_sources store); step;
      rewrite ?authentication_state_emitted_app; cbn;
      rewrite ?app_nil_r; reflexivity.
  - destruct handle as [a|]; destruct flag; step;
      rewrite ?authentication_state_emitted_app; cbn;
      rewrite ?app_nil_r; reflexivity.
Qed.

(** C1: the setter of [is_authenticated] emits [authentication_state] with
    the new value when the value changes and emits nothing when it is
    assigned the value it holds; and over every sequence of logins (the call
    and either end of its [authenticate] call), offline-mode entries and
    logouts, from every state, the values emitted are exactly the actual
    changes of the flag, one emission per change, in order. *)
Theorem authentication_state_emitted_once_per_change :
  (forall (b : bool) (st : Controller.t),
     let st' := Controller.exec (Controller.is_authenticated_setter b) st in
     Controller.is_authenticated st' = b /\
     authentication_state_emitted (Controller.trace st') =
       authentication_state_emitted (Controller.trace st) ++
       (if Bool.eqb (Controller.is_authenticated st) b then [] else [b])) /\
  (forall (l : list Transition) (st : Controller.t),
     authentication_state_emitted (Controller.trace (run l st)) =
       authentication_state_emitted (Controller.trace st) ++
       changes (Controller.is_authenticated st) (flags l st)).
Proof.
  split; [exact setter_emits_on_change|].
  induction l as [|x l IH]; intros st; cbn [run flags changes].
  - symmetry. apply app_nil_r.
  - rewrite IH, transition_emits_on_change. unfold change.
    rewrite <- app_assoc.
    destruct (Bool.eqb _ _); reflexivity.
Qed.

(** Logging in, logging in again, logging out and entering the offline
    mode: two changes, two emissions. *)
Example login_logout_offline :
  let l := [do_login "T1" "journalist" "password" "123456";
            do_on_authenticate_success PyNone;
            do_on_authenticate_success PyNone;
            do_logout "T2";
            do_logout "T3";
            do_login_offline_mode] in
  flags l (Controller.__init__ empty_session None) =
    [false; true; true; false; false; false] /\
  authentication_state_emitted
    (Controller.trace (run l (Controller.__init__ empty_session None))) =
    [true; false].
Proof. vm_compute. split; reflexivity. Qed.

(** ** Downloads that fail *)

(** A handler resubmits on a checksum mismatch, for the item the exception
    names. *)
Lemma on_download_failure_resubmits (handler object_type : ObjectType)
    (uuid : string) (st : Controller.t) :
  let exception := DownloadChecksumMismatchException object_type uuid in
  let st' := Controller.exec (on_download_failure handler exception) st in
  Controller.trace st' =
    Controller.trace st ++
    [logger DEBUG; logger DEBUG;
     api_job_queue_enqueue (download_job object_type uuid)].
Proof.
  destruct st as [flag handle store threads marker events].
  destruct handler, object_type; step; rewrite <- !app_assoc; reflexivity.
Qed.

(** The failure signal of a download job reaches the handler of its kind,
    which hands the same job to the queue again. *)
Lemma failure_signal_emit_resubmits (object_type : ObjectType)
    (uuid : string) (st : Controller.t) :
  let j := download_job object_type uuid in
  let exception := DownloadChecksumMismatchException object_type uuid in
  Controller.checksum_mismatch (Job.job j) = Some exception /\
  Controller.trace
    (Controller.exec (Controller.failure_signal_emit j exception) st) =
    Controller.trace st ++
    [logger DEBUG; logger DEBUG; api_job_queue_enqueue j].
Proof.
  destruct st as [flag handle store threads marker events].
  destruct object_type; (split; [reflexivity|]);
    cbv [download_job Controller.failure_signal_emit Job.failure_signal
         Controller.for_each Controller.failure_slot];
    step; rewrite <- !app_assoc; reflexivity.
Qed.

Lemma checksum_mismatches_resubmit (n : nat) (object_type : ObjectType)
    (uuid : string) (st : Controller.t) :
  last_enqueued st = Some (download_job object_type uuid) ->
  let st' := checksum_mismatches n st in
  enqueued (Controller.trace st') =
    enqueued (Controller.trace st) ++
    repeat (download_job object_type uuid) n /\
  error_statuses (Controller.trace st') = error_statuses (Controller.trace st).
Proof.
  revert st.
  induction n as [|n IH]; intros st Hlast; cbn [checksum_mismatches repeat].
  - rewrite app_nil_r. split; reflexivity.
  - rewrite Hlast.
    destruct (failure_signal_emit_resubmits object_type uuid st) as [-> Htrace].
    cbv zeta in Htrace.
    set (st1 := Controller.exec _ st) in *.
    destruct (IH st1) as [Hq He].
    { unfold last_enqueued. rewrite Htrace, enqueued_app.
      cbn [enqueued]. apply last_snoc. }
    cbv zeta in Hq, He. rewrite Hq, He, Htrace.
    rewrite enqueued_app, error_statuses_app. cbn.
    rewrite app_nil_r, <- app_assoc. split; reflexivity.
Qed.

(** C3: each of the three download failure handlers, given a checksum
    mismatch, hands exactly one download job to the queue, for the uuid and
    the kind the exception carries, and shows no error status; given any
    other exception, none hands a job to the queue, and the file handler
    alone shows "The file download failed. Please try again.".  A download
    job that is submitted and then fails the integrity check [n] times in a
    row, each time as the job most recently handed to the queue, is
    resubmitted exactly [n] times, each time as the same job for the same
    item, and no error status is shown. *)
Theorem checksum_mismatch_resubmits_same_item :
  (forall (handler : ObjectType) (exception : PyException) (st : Controller.t),
     let st' := Controller.exec (on_download_failure handler exception) st in
     match exception with
     | DownloadChecksumMismatchException object_type uuid =>
         enqueued (Controller.trace st') =
           enqueued (Controller.trace st) ++ [download_job object_type uuid] /\
         item_of (Job.job (download_job object_type uuid)) =
           Some (object_type, uuid) /\
         error_statuses (Controller.trace st') =
           error_statuses (Controller.trace st)
     | _ =>
         enqueued (Controller.trace st') = enqueued (Controller.trace st) /\
         error_statuses (Controller.trace st') =
           error_statuses (Controller.trace st) ++
           match handler with
           | File => ["The file download failed. Please try again."]
           | _ => []
           end
     end) /\
  (forall (n : nat) (object_type : ObjectType) (uuid : string)
          (st : Controller.t),
     let submitted :=
       Controller.exec (Controller._submit_download_job object_type uuid) st in
     let st' := checksum_mismatches n submitted in
     enqueued (Controller.trace submitted) =
       enqueued (Controller.trace st) ++ [download_job object_type uuid] /\
     enqueued (Controller.trace st') =
       enqueued (Controller.trace submitted) ++
       repeat (download_job object_type uuid) n /\
     error_statuses (Controller.trace st') =
       error_statuses (Controller.trace st)).
Proof.
  split.
  - intros handler exception st.
    destruct exception as [ |object_type uuid| | | | | | | | ];
      try (destruct st as [flag handle store threads marker events];
           destruct handler; step;
           rewrite ?enqueued_app, ?error_statuses_app; cbn;
           rewrite ?app_nil_r; split; reflexivity).
    cbv zeta. rewrite on_download_failure_resubmits.
    rewrite enqueued_app, error_statuses_app. cbn. rewrite app_nil_r.
    destruct object_type; repeat split.
  - intros n object_type uuid st.
    assert (Hsub : Controller.trace
              (Controller.exec
                 (Controller._submit_download_job object_type uuid) st) =
            Controller.trace st ++
            [api_job_queue_enqueue (download_job object_type uuid)]).
    { destruct st as [flag handle store threads marker events].
      destruct object_type; reflexivity. }
    cbv zeta.
    destruct (checksum_mismatches_resubmit n object_type uuid
                (Controller.exec
                   (Controller._submit_download_job object_type uuid) st))
      as [Hq He].
    { unfold last_enqueued. rewrite Hsub, enqueued_app.
      cbn [enqueued]. apply last_snoc. }
    cbv zeta in Hq, He. rewrite Hq, He, Hsub.
    rewrite enqueued_app, error_statuses_app. cbn. rewrite app_nil_r.
    repeat split.
Qed.

(** The file "F1" fails the integrity check three times: three more jobs
    for "F1", and nothing shown to the user. *)
Example file_F1_fails_three_times :
  let st :=
    checksum_mismatches 3
      (Controller.exec (Controller._submit_download_job File "F1")
         logging_in) in
  List.map Job.job (enqueued (Controller.trace st)) =
    [FileDownloadJob "F1"; FileDownloadJob "F1"; FileDownloadJob "F1";
     FileDownloadJob "F1"] /\
  error_statuses (Controller.trace st) = [].
Proof. vm_compute. split; reflexivity. Qed.

(** ** The stable descending sort *)

Section SortFacts.
Context {A : Type} (key : A -> Z).

Lemma insert_reverse_perm (x : A) (l : list A) :
  Permutation (x :: l) (insert_reverse key x l).
Proof.
  induction l as [|y l IH]; cbn; [reflexivity|].
  destruct (key y <=? key x)%Z; [reflexivity|].
  rewrite <- IH. apply perm_swap.
Qed.

Lemma sort_reverse_perm (l : list A) : Permutation l (sort_reverse key l).
Proof.
  induction l as [|x l IH]; cbn; [reflexivity|].
  rewrite <- insert_reverse_perm. constructor. exact IH.
Qed.

Lemma insert_reverse_descending (x : A) (l : list A) :
  descending key l -> descending key (insert_reverse key x l).
Proof.
  unfold descending. induction 1 as [|y l Hl IH Hy]; cbn.
  - constructor; constructor.
  - destruct (key y <=? key x)%Z eqn:E.
    + apply Z.leb_le in E. constructor; [constructor; assumption|].
      constructor; [exact E|].
      eapply Forall_impl; [exact Hy|]. cbn. intros z Hz. lia.
    + apply Z.leb_gt in E. constructor; [exact IH|].
      rewrite <- insert_reverse_perm. constructor; [lia | exact Hy].
Qed.

Lemma sort_reverse_descending (l : list A) :
  descending key (sort_reverse key l).
Proof.
  induction l as [|x l IH]; cbn.
  - constructor.
  - apply insert_reverse_descending, IH.
Qed.

(** Inserting [x] moves it past greater keys only, so the elements of any
    one key keep their order. *)
Lemma insert_reverse_with_key (k : Z) (x : A) (l : list A) :
  with_key key k (insert_reverse key x l) = with_key key k (x :: l).
Proof.
  unfold with_key. induction l as [|y l IH]; cbn; [reflexivity|].
  destruct (key y <=? key x)%Z eqn:E; cbn; [reflexivity|].
  rewrite IH. cbn. apply Z.leb_gt in E.
  destruct (key y =? k)%Z eqn:Ey, (key x =? k)%Z eqn:Ex; try reflexivity.
  apply Z.eqb_eq in Ey, Ex. lia.
Qed.

Lemma sort_reverse_stable (k : Z) (l : list A) :
  with_key key k (sort_reverse key l) = with_key key k l.
Proof.
  induction l as [|x l IH]; [reflexivity|].
  change (sort_reverse key (x :: l))
    with (insert_reverse key x (sort_reverse key l)).
  rewrite insert_reverse_with_key. unfold with_key in *. cbn.
  rewrite IH. reflexivity.
Qed.

End SortFacts.

Example sort_reverse_example :
  sort_reverse Source.last_updated
    [a_source 1 "a" 5; a_source 2 "b" 7; a_source 3 "c" 5; a_source 4 "d" 9;
     a_source 5 "e" 7] =
    [a_source 4 "d" 9; a_source 2 "b" 7; a_source 5 "e" 7; a_source 1 "a" 5;
     a_source 3 "c" 5].
Proof. reflexivity. Qed.

(** ** The list of sources *)

(** C8: [update_sources] shows the sources of the local store, all of them
    and no other, most recently updated first: a later source in the list
    shown never has a greater [last_updated]; and the sort is stable: the
    sources that share a [last_updated] are shown in the order the store
    gave them. *)
Theorem update_sources_shows_most_recent_first (st : Controller.t) :
  let st' := Controller.exec Controller.update_sources st in
  exists shown : list Source.t,
    Controller.trace st' =
      Controller.trace st ++
      [gui_show_sources shown; gui_show_sync (Controller.last_sync st)] /\
    Permutation (storage.get_local_sources (Controller.session st)) shown /\
    descending Source.last_updated shown /\
    forall k : Z,
      with_key Source.last_updated k shown =
      with_key Source.last_updated k
        (storage.get_local_sources (Controller.session st)).
Proof.
  exists (sort_reverse Source.last_updated
            (storage.get_local_sources (Controller.session st))).
  split; [|split; [|split]].
  - destruct st as [flag handle store threads marker events]. step.
    destruct (storage.get_local_sources store); cbn;
      rewrite <- !app_assoc; reflexivity.
  - apply sort_reverse_perm.
  - apply sort_reverse_descending.
  - intros k. apply sort_reverse_stable.
Qed.

(** ** The download loops *)

Lemma append_append (l1 l2 : list Event) (st : Controller.t) :
  Controller.append l2 (Controller.append l1 st) =
  Controller.append (l1 ++ l2) st.
Proof.
  destruct st as [flag handle store threads marker events].
  unfold Controller.append. cbn. rewrite app_assoc. reflexivity.
Qed.

Lemma append_nil (st : Controller.t) : Controller.append [] st = st.
Proof.
  destruct st as [flag handle store threads marker events].
  unfold Controller.append. cbn. rewrite app_nil_r. reflexivity.
Qed.

Lemma for_each_submit (object_type : ObjectType) (items : list Item.t)
    (st : Controller.t) :
  Controller.for_each items
    (fun item => Controller._submit_download_job object_type (Item.uuid item))
    st =
  (Controller.append (download_events object_type items) st, Returned tt).
Proof.
  revert st.
  induction items as [|item items IH]; intros st;
    cbn [Controller.for_each download_events List.map].
  - unfold Controller.ret. rewrite append_nil. reflexivity.
  - unfold Controller.bind at 1.
    change (Controller._submit_download_job object_type (Item.uuid item) st)
      with (Controller.append
              [api_job_queue_enqueue
                 (download_job object_type (Item.uuid item))] st,
            Returned tt).
    cbv beta iota. rewrite IH, append_append. reflexivity.
Qed.

Lemma download_new_messages_run (st : Controller.t) :
  let messages := storage.find_new_messages (Controller.session st) in
  Controller.download_new_messages st =
  (Controller.append
     ((if (0 <? length messages)%nat
       then [gui_update_activity_status "Downloading new messages" 5000]
       else []) ++ download_events Message messages) st,
   Returned tt).
Proof.
  cbv zeta. unfold Controller.download_new_messages.
  unfold Controller.bind, Controller.get.
  destruct (0 <? length _)%nat.
  - change (Controller.set_status "Downloading new messages" 5000 st)
      with (Controller.append
              [gui_update_activity_status "Downloading new messages" 5000] st,
            Returned tt).
    cbv beta iota. rewrite for_each_submit, append_append. reflexivity.
  - unfold Controller.ret. cbv beta iota. rewrite for_each_submit. reflexivity.
Qed.

Lemma download_new_replies_run (st : Controller.t) :
  Controller.download_new_replies st =
  (Controller.append
     (download_events Reply
        (storage.find_new_replies (Controller.session st))) st,
   Returned tt).
Proof.
  unfold Controller.download_new_replies, Controller.bind, Controller.get.
  apply for_each_submit.
Qed.

Lemma download_events_not_synced (object_type : ObjectType)
    (items : list Item.t) :
  List.existsb is_synced_emit (download_events object_type items) = false.
Proof. induction items as [|item items IH]; [reflexivity | exact IH]. Qed.

Lemma download_events_keep_sync_flag (object_type : ObjectType)
    (items : list Item.t) (f : option Z) :
  sync_flag_after f (download_events object_type items) = f.
Proof. induction items as [|item items IH]; [reflexivity | exact IH]. Qed.

Lemma sync_flag_after_app (f : option Z) (l1 l2 : list Event) :
  sync_flag_after f (l1 ++ l2) = sync_flag_after (sync_flag_after f l1) l2.
Proof.
  revert f. induction l1 as [|e l1 IH]; intros f; [reflexivity|].
  destruct e; cbn; apply IH.
Qed.

(** The state [on_sync_success] leaves when the flag file is written, but
    for the trace. *)
Lemma on_sync_success_run (now : Z) (missing : File.t -> bool)
    (st : Controller.t) :
  Controller.on_sync_success now Controller.flag_written missing st =
  (Controller.append
     (gui_clear_error_status :: sync_flag_write now ::
      between_marker_and_synced now st ++
      [sync_events_emit "synced"; api_job_queue_resume_queues])
     {| Controller.is_authenticated := Controller.is_authenticated st;
        Controller.api := Controller.api st;
        Controller.session :=
          storage.update_missing_files missing (Controller.session st);
        Controller.api_threads := Controller.api_threads st;
        Controller.sync_flag := Some now;
        Controller.trace := Controller.trace st |},
   Returned tt).
Proof.
  destruct st as [flag handle store threads marker events].
  unfold between_marker_and_synced.
  step. rewrite download_new_messages_run. step.
  rewrite download_new_replies_run. step.
  unfold Controller.append. step.
  destruct store as [sources messages replies files drafts users new].
  destruct sources as [|source sources]; cbn; rewrite <- !app_assoc;
    reflexivity.
Qed.

(** When the write of the flag file raises, the handler stops there. *)
Lemma on_sync_success_not_written (now : Z) (ex : PyException)
    (held : option Z) (missing : File.t -> bool) (st : Controller.t) :
  Controller.on_sync_success now (Controller.flag_not_written ex held)
    missing st =
  ({| Controller.is_authenticated := Controller.is_authenticated st;
      Controller.api := Controller.api st;
      Controller.session := Controller.session st;
      Controller.api_threads := Controller.api_threads st;
      Controller.sync_flag := held;
      Controller.trace := Controller.trace st ++ [gui_clear_error_status] |},
   Raised ex).
Proof.
  destruct st as [flag handle store threads marker events]. reflexivity.
Qed.

Lemma on_sync_success_last_sync (now : Z) (missing : File.t -> bool)
    (st : Controller.t) :
  Controller.last_sync
    (Controller.exec
       (Controller.on_sync_success now Controller.flag_written missing) st) =
  Some now.
Proof.
  unfold Controller.exec. rewrite on_sync_success_run. reflexivity.
Qed.

Lemma markers_are_the_clock (missing : File.t -> bool) (nows : list Z)
    (st : Controller.t) :
  markers missing nows st = List.map Some nows.
Proof.
  revert st.
  induction nows as [|now nows IH]; intros st; cbn [markers List.map].
  - reflexivity.
  - rewrite on_sync_success_last_sync, IH. reflexivity.
Qed.

Lemma marker_le_all (now : Z) (nows : list Z) :
  Forall (marker_le (Some now)) (List.map Some nows) <->
  Forall (Z.le now) nows.
Proof.
  induction nows as [|x nows IH]; cbn [List.map].
  - split; constructor.
  - split; intros H; inversion H as [|? ? Hx Hrest]; subst;
      constructor; solve [exact Hx | apply IH, Hrest].
Qed.

Lemma marker_le_sorted (nows : list Z) :
  Sorted Z.le nows -> StronglySorted marker_le (List.map Some nows).
Proof.
  intros H. apply Sorted_StronglySorted in H; [|intros x y z; apply Z.le_trans].
  induction H as [|now nows Hs IH Hall]; cbn [List.map]; constructor.
  - exact IH.
  - apply marker_le_all, Hall.
Qed.

Lemma marker_le_sorted_inv (nows : list Z) :
  StronglySorted marker_le (List.map Some nows) -> Sorted Z.le nows.
Proof.
  intros H. apply StronglySorted_Sorted.
  induction nows as [|now nows IH]; [constructor|].
  cbn [List.map] in H. apply StronglySorted_inv in H as [Hs Hall].
  constructor; [apply IH, Hs|].
  apply marker_le_all, Hall.
Qed.

(** ** A successful metadata sync *)

(** C6, as it is stated, fails: the handler writes what [arrow.now()] gives,
    whatever the file held, so when the clock gives 100 and then 50 in two
    successful syncs the marker goes from 100 back to 50. *)
Lemma marker_follows_the_clock_backwards :
  markers (fun _ => false) [100; 50]%Z logging_in = [Some 100; Some 50]%Z /\
  ~ StronglySorted marker_le
      (markers (fun _ => false) [100; 50]%Z logging_in).
Proof.
  split; [apply markers_are_the_clock|].
  rewrite markers_are_the_clock. intros H.
  apply marker_le_sorted_inv in H.
  inversion H as [|? ? _ Hhd]. inversion Hhd as [|? ? Hle]. lia.
Qed.

(** C6, amended: [on_sync_success] clears the error status and then writes
    the last-sync marker; when the write raises the handler stops there and
    emits no "synced"; otherwise it does the rest of its work and only then
    emits "synced" (and resumes the queues), so no "synced" comes before the
    write, and at the emission the sync flag file holds [now], the time read
    in the handler, which is also what [last_sync] gives afterwards.  The
    marker is written whatever the file held: across successful syncs the
    markers are the successive clock readings, and they do not decrease
    exactly when those readings do not. *)
Theorem marker_written_before_synced (now : Z)
    (write : Controller.SyncFlagWrite) (missing : File.t -> bool)
    (nows : list Z) (st : Controller.t) :
  let st' :=
    Controller.exec (Controller.on_sync_success now write missing) st in
  match write with
  | Controller.flag_written =>
      Controller.outcome (Controller.on_sync_success now write missing) st =
        Returned tt /\
      (exists between : list Event,
         Controller.trace st' =
           Controller.trace st ++
           gui_clear_error_status :: sync_flag_write now :: between ++
           [sync_events_emit "synced"; api_job_queue_resume_queues] /\
         List.existsb is_synced_emit between = false /\
         sync_flag_after (Controller.sync_flag st)
           (gui_clear_error_status :: sync_flag_write now :: between) =
           Some now) /\
      Controller.last_sync st' = Some now
  | Controller.flag_not_written ex held =>
      Controller.outcome (Controller.on_sync_success now write missing) st =
        Raised ex /\
      Controller.trace st' = Controller.trace st ++ [gui_clear_error_status] /\
      Controller.last_sync st' = held
  end /\
  markers missing nows st = List.map Some nows /\
  (StronglySorted marker_le (markers missing nows st) <-> Sorted Z.le nows).
Proof.
  cbv zeta. split; [|split].
  - destruct write as [|ex held].
    + unfold Controller.exec, Controller.outcome. rewrite on_sync_success_run.
      split; [reflexivity | split; [|reflexivity]].
      exists (between_marker_and_synced now st). split; [|split].
      * reflexivity.
      * unfold between_marker_and_synced.
        rewrite !List.existsb_app, !download_events_not_synced.
        destruct (0 <? length _)%nat; reflexivity.
      * unfold between_marker_and_synced. cbn [sync_flag_after app].
        rewrite !sync_flag_after_app, !download_events_keep_sync_flag.
        destruct (0 <? length _)%nat; reflexivity.
    + unfold Controller.exec, Controller.outcome.
      rewrite on_sync_success_not_written. repeat split.
  - apply markers_are_the_clock.
  - rewrite markers_are_the_clock. split.
    + apply marker_le_sorted_inv.
    + apply marker_le_sorted.
Qed.

(** * Further properties of the controller *)

(** ** Synchronising *)

(** What [sync_api] does, in one piece. *)
Lemma sync_api_run (st : Controller.t) :
  Controller.sync_api st =
  (Controller.append
     (if Controller.authenticated st
      then [logger DEBUG; sync_events_emit "syncing"; logger DEBUG;
            api_job_queue_enqueue sync_job; logger DEBUG]
      else [logger DEBUG]) st,
   Returned tt).
Proof.
  destruct st as [flag handle store threads marker events].
  destruct handle as [a|]; [destruct (API.token a) eqn:Htoken|];
    run_all; rewrite ?Htoken; run_all; rewrite <- ?app_assoc; reflexivity.
Qed.

(** X1: [sync_api] does nothing but log unless the controller holds an API
    handle with a token, whatever the [is_authenticated] flag says; with one
    it emits "syncing" and then hands exactly one [MetadataSyncJob] to the
    queue.  It changes nothing but the trace. *)
Theorem sync_api_needs_token (st : Controller.t) :
  let st' := Controller.exec Controller.sync_api st in
  Controller.outcome Controller.sync_api st = Returned tt /\
  same_but_trace st st' /\
  match Controller.api st with
  | Some {| API.token := Some _ |} =>
      Controller.trace st' =
        Controller.trace st ++
        [logger DEBUG; sync_events_emit "syncing"; logger DEBUG;
         api_job_queue_enqueue sync_job; logger DEBUG]
  | _ => Controller.trace st' = Controller.trace st ++ [logger DEBUG]
  end.
Proof.
  cbv zeta. unfold Controller.exec, Controller.outcome.
  rewrite sync_api_run.
  destruct st as [flag handle store threads marker events].
  split; [reflexivity | split; [repeat split|]].
  destruct handle as [[username [token|] uuid first last]|]; reflexivity.
Qed.

(** ** The registry of calls *)

(** What the runner of a call holds and has emitted when it has run. *)
Lemma runner_call_api (callable : list PyValue -> Outcome PyValue) :
  let r := APICallRunner.call_api (runner callable) in
  APICallRunner.result r = result_of (callable []) /\
  APICallRunner.effects r =
    match callable [] with
    | Returned _ => [APICallRunner.emit APICallRunner.call_succeeded]
    | Raised ex =>
        (if isinstance_RequestTimeoutError ex
         then [APICallRunner.emit APICallRunner.call_timed_out] else []) ++
        [APICallRunner.logger_error ex;
         APICallRunner.emit APICallRunner.call_failed]
    end.
Proof.
  unfold APICallRunner.call_api, runner. cbn.
  destruct (callable []) as [v | ex]; cbn; [split; reflexivity|].
  destruct (isinstance_RequestTimeoutError ex); split; reflexivity.
Qed.

(** A call and the run of its thread, in one piece. *)
Lemma call_api_then_thread_run (new_thread_id : string)
    (api_call_func : Controller.ApiCall) (method : BoundMethod)
    (success_callback failure_callback : Controller.Callback)
    (st : Controller.t) :
  Controller.bind
    (Controller.call_api new_thread_id api_call_func
       success_callback failure_callback)
    (fun _ =>
       api_thread_run new_thread_id method success_callback failure_callback)
    st =
  Controller.user_callback
    (callback_of (gives method []) success_callback failure_callback)
    (result_of (gives method []))
    (Controller.append [thread_start new_thread_id; logger INFO]
       (with_api_threads (delete new_thread_id (Controller.api_threads st))
          (with_api (api_after api_call_func method st) st))).
Proof.
  destruct st as [flag handle store threads marker events].
  unfold api_thread_run.
  destruct (runner_call_api (gives method)) as [Hresult Heffects].
  cbv zeta in Hresult, Heffects. cbv zeta. rewrite Hresult, Heffects.
  cbv [Controller.bind Controller.call_api Controller.get
       Controller.set_api_threads Controller.set_api Controller.emit
       Controller.append with_api_threads with_api Controller.exec fst
       Controller.is_authenticated Controller.api Controller.session
       Controller.api_threads Controller.sync_flag Controller.trace].
  rewrite lookup_insert_eq, alter_insert_eq.
  cbv [Controller.runner_api_call].
  change (api_after api_call_func method _)
    with (api_after api_call_func method
            {| Controller.is_authenticated := flag; Controller.api := handle;
               Controller.session := store;
               Controller.api_threads := threads;
               Controller.sync_flag := marker;
               Controller.trace := events |}).
  set (handle' := api_after api_call_func method _).
  assert (Hdone : forall (cb : Controller.Callback) (v : PyValue)
                    (info : Controller.ThreadInfo),
    Controller.runner_result info = v ->
    Controller.completed_api_call new_thread_id cb
      {| Controller.is_authenticated := flag; Controller.api := handle';
         Controller.session := store;
         Controller.api_threads := <[new_thread_id := info]> threads;
         Controller.sync_flag := marker;
         Controller.trace := events ++ [thread_start new_thread_id] |} =
    Controller.user_callback cb v
      {| Controller.is_authenticated := flag; Controller.api := handle';
         Controller.session := store;
         Controller.api_threads := delete new_thread_id threads;
         Controller.sync_flag := marker;
         Controller.trace :=
           events ++ [thread_start new_thread_id; logger INFO] |}).
  { intros cb v info <-.
    cbv [Controller.completed_api_call Controller.bind Controller.emit
         Controller.get Controller.set_api_threads
         Controller.is_authenticated Controller.api Controller.session
         Controller.api_threads Controller.sync_flag Controller.trace].
    rewrite lookup_insert_eq, delete_insert_eq, <- app_assoc. reflexivity. }
  destruct (gives method []) as [v | ex];
    [|destruct (isinstance_RequestTimeoutError ex)];
    cbn [Controller.for_each app connected callback_of result_of];
    cbv [Controller.bind Controller.ret];
    erewrite Hdone by reflexivity;
    destruct (Controller.user_callback _ _ _) as [st' [[]|ex']]; reflexivity.
Qed.

(** No callback touches the registry. *)
Lemma user_callback_keeps_api_threads (cb : Controller.Callback)
    (v : PyValue) (st : Controller.t) :
  Controller.api_threads (Controller.exec (Controller.user_callback cb v) st) =
  Controller.api_threads st.
Proof.
  destruct st as [flag handle store threads marker events].
  destruct cb; run_all; try reflexivity.
  destruct handle as [a|]; [|reflexivity].
  destruct (API.token a) eqn:Htoken; run_all; rewrite ?Htoken; run_all;
    destruct flag; reflexivity.
Qed.


(** Completing a call that has an entry: the entry is removed, and the
    callback is called with the result the runner holds. *)
Lemma completed_api_call_found (thread_id : string)
    (cb : Controller.Callback) (info : Controller.ThreadInfo)
    (st : Controller.t) :
  Controller.api_threads st !! thread_id = Some info ->
  Controller.completed_api_call thread_id cb st =
  Controller.user_callback cb (Controller.runner_result info)
    (Controller.append [logger INFO]
       (with_api_threads (delete thread_id (Controller.api_threads st)) st)).
Proof.
  destruct st as [flag handle store threads marker events]. cbn. intros H.
  cbv [Controller.completed_api_call Controller.bind Controller.emit
       Controller.get Controller.set_api_threads Controller.append
       with_api_threads Controller.exec fst
       Controller.is_authenticated Controller.api Controller.session
       Controller.api_threads Controller.sync_flag Controller.trace].
  rewrite H. reflexivity.
Qed.

(** X3: a call is completed at most once.  [completed_api_call] for a
    thread id that has no entry, be it unknown or completed before, logs,
    raises [KeyError] and calls no callback: nothing else changes. *)
Theorem completed_at_most_once (thread_id : string)
    (cb cb' : Controller.Callback) (st : Controller.t) :
  (Controller.api_threads st !! thread_id = None ->
   Controller.completed_api_call thread_id cb st =
     (Controller.append [logger INFO] st, Raised (KeyError thread_id))) /\
  let st1 := Controller.exec (Controller.completed_api_call thread_id cb) st in
  Controller.completed_api_call thread_id cb' st1 =
    (Controller.append [logger INFO] st1, Raised (KeyError thread_id)).
Proof.
  assert (Hnone : forall st0 : Controller.t,
    Controller.api_threads st0 !! thread_id = None ->
    forall cb0 : Controller.Callback,
    Controller.completed_api_call thread_id cb0 st0 =
      (Controller.append [logger INFO] st0, Raised (KeyError thread_id))).
  { intros [flag handle store threads marker events] H cb0. cbn in H.
    cbv [Controller.completed_api_call Controller.bind Controller.emit
         Controller.get Controller.raise Controller.append
         Controller.is_authenticated Controller.api Controller.session
         Controller.api_threads Controller.sync_flag Controller.trace].
    rewrite H. reflexivity. }
  split; [intros H; apply Hnone, H|].
  cbv zeta. apply Hnone.
  destruct (Controller.api_threads st !! thread_id) as [info|] eqn:Hlookup.
  - unfold Controller.exec.
    rewrite (completed_api_call_found _ _ _ _ Hlookup).
    fold (Controller.exec
            (Controller.user_callback cb (Controller.runner_result info))
            (Controller.append [logger INFO]
               (with_api_threads
                  (delete thread_id (Controller.api_threads st)) st))).
    rewrite user_callback_keeps_api_threads.
    destruct st as [flag handle store threads marker events]. cbn.
    apply lookup_delete_eq.
  - unfold Controller.exec. rewrite (Hnone _ Hlookup).
    destruct st as [flag handle store threads marker events]. exact Hlookup.
Qed.

Lemma completed_at_most_once_witness :
  Controller.api_threads logging_in !! "T1" = None /\
  Controller.completed_api_call "T1" Controller.cb_on_logout_success
    logging_in =
  (Controller.append [logger INFO] logging_in, Raised (KeyError "T1")).
Proof.
  split; [reflexivity|].
  apply (completed_at_most_once "T1" Controller.cb_on_logout_success
           Controller.cb_on_logout_success logging_in).
  reflexivity.
Defined.


(** ** Logging in and out *)

(** The handle after the [authenticate] call of a [login]: the object that
    [login] assigned to [self.api], as the call left it. *)
Lemma api_after_login (username password totp : string)
    (method : BoundMethod) (st : Controller.t) :
  Controller.api st = Some (sdclientapi.API username password totp) ->
  api_after
    (Controller.api_authenticate (sdclientapi.API username password totp))
    method st =
  Some (leaves method (sdclientapi.API username password totp)).
Proof.
  intros H. unfold api_after, holds, bound_to.
  rewrite bool_decide_eq_true_2 by exact H. reflexivity.
Qed.

(** [login] and the run of its thread, up to the callback. *)
Lemma login_then_thread_run
    (new_thread_id username password totp : string) (method : BoundMethod)
    (st : Controller.t) :
  Controller.bind
    (Controller.login new_thread_id username password totp)
    (fun _ =>
       api_thread_run new_thread_id method
         Controller.cb_on_authenticate_success
         Controller.cb_on_authenticate_failure)
    st =
  Controller.user_callback
    (callback_of (gives method [])
       Controller.cb_on_authenticate_success
       Controller.cb_on_authenticate_failure)
    (result_of (gives method []))
    {| Controller.is_authenticated := Controller.is_authenticated st;
       Controller.api :=
         Some (leaves method (sdclientapi.API username password totp));
       Controller.session :=
         storage.mark_all_pending_drafts_as_failed (Controller.session st);
       Controller.api_threads :=
         delete new_thread_id (Controller.api_threads st);
       Controller.sync_flag := Controller.sync_flag st;
       Controller.trace :=
         Controller.trace st ++
         [storage_mark_all_pending_drafts_as_failed;
          thread_start new_thread_id; logger INFO] |}.
Proof.
  destruct st as [flag handle store threads marker events].
  unfold Controller.login.
  cbv [Controller.bind Controller.get Controller.set_session Controller.emit
       Controller.set_api
       Controller.is_authenticated Controller.api Controller.session
       Controller.api_threads Controller.sync_flag Controller.trace].
  pose proof (call_api_then_thread_run new_thread_id
                (Controller.api_authenticate
                   (sdclientapi.API username password totp))
                method Controller.cb_on_authenticate_success
                Controller.cb_on_authenticate_failure) as Hrun.
  unfold Controller.bind in Hrun. rewrite Hrun.
  rewrite api_after_login by reflexivity.
  cbv [Controller.append with_api_threads with_api Controller.exec
       Controller.set_api_threads Controller.set_api fst
       Controller.is_authenticated Controller.api Controller.session
       Controller.api_threads Controller.sync_flag Controller.trace].
  rewrite <- !app_assoc. reflexivity.
Qed.

(** X4: a login that fails leaves no trace of the attempt in the state but
    the sweep of the drafts.  When the thread id is fresh and the
    [authenticate] call raises, whatever it has left of the handle, then
    after [login] and the run of its thread the API handle is [None], the
    registry of threads is as it was before the login, the flag is
    unchanged and no [authentication_state] is emitted, nothing is handed
    to the queue, and the login error is shown. *)
Theorem failed_login_discards_handle
    (new_thread_id username password totp : string)
    (method : BoundMethod) (ex : PyException)
    (st : Controller.t)
    (Hfresh : Controller.api_threads st !! new_thread_id = None)
    (Hraises : gives method [] = Raised ex) :
  Controller.bind
    (Controller.login new_thread_id username password totp)
    (fun _ =>
       api_thread_run new_thread_id method
         Controller.cb_on_authenticate_success
         Controller.cb_on_authenticate_failure)
    st =
  ({| Controller.is_authenticated := Controller.is_authenticated st;
      Controller.api := None;
      Controller.session :=
        storage.mark_all_pending_drafts_as_failed (Controller.session st);
      Controller.api_threads := Controller.api_threads st;
      Controller.sync_flag := Controller.sync_flag st;
      Controller.trace :=
        Controller.trace st ++
        [storage_mark_all_pending_drafts_as_failed;
         thread_start new_thread_id;
         logger INFO;
         gui_show_login_error
           "There was a problem signing in. Please verify your credentials and try again."] |},
   Returned tt).
Proof.
  rewrite login_then_thread_run, Hraises.
  destruct st as [flag handle store threads marker events]. cbn in Hfresh.
  cbn [callback_of result_of]. run_all.
  rewrite (delete_id _ _ Hfresh), <- !app_assoc. reflexivity.
Qed.

Lemma failed_login_discards_handle_witness :
  Controller.api_threads logging_in !! "T1" = None /\
  gives rejected [] = Raised (OtherException "403") /\
  Controller.api
    (Controller.exec
       (Controller.bind
          (Controller.login "T1" "journalist" "password" "123456")
          (fun _ =>
             api_thread_run "T1" rejected
               Controller.cb_on_authenticate_success
               Controller.cb_on_authenticate_failure))
       logging_in) = None.
Proof.
  split; [reflexivity | split; [reflexivity|]].
  unfold Controller.exec.
  rewrite (failed_login_discards_handle "T1" "journalist" "password" "123456"
             rejected (OtherException "403") logging_in);
    reflexivity.
Defined.

(** X21: a login that the server accepts.  When the thread id is fresh and
    the [authenticate] call returns, then after [login] and the run of its
    thread the controller holds the handle as the call left it, the success
    handler has run on that handle and the flag is true; the registry of
    threads is as it was before the login.  The [MetadataSyncJob] of the
    immediate sync is handed to the queue exactly when the call left a token
    on the handle, and [authentication_state(True)] is emitted exactly when
    the flag was false. *)
Theorem accepted_login_syncs
    (new_thread_id username password totp : string)
    (method : BoundMethod) (v : PyValue) (st : Controller.t)
    (Hfresh : Controller.api_threads st !! new_thread_id = None)
    (Hreturns : gives method [] = Returned v) :
  let a := leaves method (sdclientapi.API username password totp) in
  let user :=
    {| User.uuid := API.token_journalist_uuid a;
       User.username := API.username a;
       User.firstname := API.journalist_first_name a;
       User.lastname := API.journalist_last_name a |} in
  Controller.bind
    (Controller.login new_thread_id username password totp)
    (fun _ =>
       api_thread_run new_thread_id method
         Controller.cb_on_authenticate_success
         Controller.cb_on_authenticate_failure)
    st =
  ({| Controller.is_authenticated := true;
      Controller.api := Some a;
      Controller.session :=
        snd (storage.update_and_get_user
               (API.token_journalist_uuid a) (API.username a)
               (API.journalist_first_name a) (API.journalist_last_name a)
               (storage.mark_all_pending_drafts_as_failed
                  (Controller.session st)));
      Controller.api_threads := Controller.api_threads st;
      Controller.sync_flag := Controller.sync_flag st;
      Controller.trace :=
        Controller.trace st ++
        [storage_mark_all_pending_drafts_as_failed;
         thread_start new_thread_id; logger INFO;
         logger INFO; gui_hide_login; storage_update_and_get_user user;
         gui_show_main_window (Some user); api_job_queue_login a] ++
        match API.token a with
        | Some _ =>
            [logger DEBUG; sync_events_emit "syncing"; logger DEBUG;
             api_job_queue_enqueue sync_job; logger DEBUG]
        | None => [logger DEBUG]
        end ++
        (if Controller.is_authenticated st then []
         else [authentication_state_emit true]) ++
        [api_job_queue_resume_queues] |},
   Returned tt).
Proof.
  cbv zeta. rewrite login_then_thread_run, Hreturns.
  destruct st as [flag handle store threads marker events]. cbn in Hfresh.
  cbn [callback_of result_of].
  destruct (leaves method (sdclientapi.API username password totp))
    as [name [token|] uuid first last];
    destruct flag; run_all; cbn [API.token]; run_all;
    rewrite (delete_id _ _ Hfresh), <- !app_assoc; reflexivity.
Qed.

Lemma accepted_login_syncs_witness :
  Controller.api_threads (Controller.__init__ empty_session None) !! "T1" =
    None /\
  gives (accepted "token" "U1" "Jo" "Doe") [] = Returned (PyBool true) /\
  enqueued
    (Controller.trace
       (Controller.exec
          (Controller.bind
             (Controller.login "T1" "journalist" "password" "123456")
             (fun _ =>
                api_thread_run "T1" (accepted "token" "U1" "Jo" "Doe")
                  Controller.cb_on_authenticate_success
                  Controller.cb_on_authenticate_failure))
          (Controller.__init__ empty_session None))) = [sync_job].
Proof.
  split; [reflexivity | split; [reflexivity|]].
  unfold Controller.exec.
  rewrite (accepted_login_syncs "T1" "journalist" "password" "123456"
             (accepted "token" "U1" "Jo" "Doe") (PyBool true)
             (Controller.__init__ empty_session None));
    reflexivity.
Defined.

(** X5: after a [logout] made with an API handle, the controller holds no
    handle and is unauthenticated, one thread has been started for the
    [logout] call of the old handle, the queue has been told to log out and
    the drafts have been swept; and whichever of [sync_api], [update_star],
    [delete_source] and [on_submission_download] runs next hands nothing to
    the queue. *)
Theorem logout_stops_authenticated_work (new_thread_id : string)
    (a : API.t) (st : Controller.t)
    (Hapi : Controller.api st = Some a) :
  let st' := Controller.exec (Controller.logout new_thread_id) st in
  Controller.logout new_thread_id st =
    ({| Controller.is_authenticated := false;
        Controller.api := None;
        Controller.session :=
          storage.mark_all_pending_drafts_as_failed (Controller.session st);
        Controller.api_threads :=
          <[new_thread_id :=
              thread_info (Controller.api_logout a)
                Controller.cb_on_logout_success
                Controller.cb_on_logout_failure]>
            (Controller.api_threads st);
        Controller.sync_flag := Controller.sync_flag st;
        Controller.trace :=
          Controller.trace st ++
          [thread_start new_thread_id; api_job_queue_logout;
           storage_mark_all_pending_drafts_as_failed; gui_logout] ++
          (if Controller.is_authenticated st
           then [authentication_state_emit false] else []) |},
     Returned tt) /\
  Controller.authenticated st' = false /\
  forall (source : Source.t) (callback : string)
         (submission_type : ObjectType) (submission_uuid : string)
         (next : Controller.M unit),
    In next
      [Controller.sync_api;
       Controller.update_star source callback;
       Controller.delete_source source;
       Controller.on_submission_download submission_type submission_uuid] ->
    enqueued (Controller.trace (Controller.exec next st')) =
      enqueued (Controller.trace st).
Proof.
  destruct st as [flag handle store threads marker events].
  cbn in Hapi. subst handle.
  assert (Hlogout :
    Controller.logout new_thread_id
      {| Controller.is_authenticated := flag; Controller.api := Some a;
         Controller.session := store; Controller.api_threads := threads;
         Controller.sync_flag := marker; Controller.trace := events |} =
    ({| Controller.is_authenticated := false;
        Controller.api := None;
        Controller.session := storage.mark_all_pending_drafts_as_failed store;
        Controller.api_threads :=
          <[new_thread_id :=
              thread_info (Controller.api_logout a)
                Controller.cb_on_logout_success
                Controller.cb_on_logout_failure]> threads;
        Controller.sync_flag := marker;
        Controller.trace :=
          events ++
          [thread_start new_thread_id; api_job_queue_logout;
           storage_mark_all_pending_drafts_as_failed; gui_logout] ++
          (if flag then [authentication_state_emit false] else []) |},
     Returned tt)).
  { destruct flag; run_all; rewrite <- !app_assoc; reflexivity. }
  cbv zeta.
  replace (Controller.exec (Controller.logout new_thread_id) _)
    with (fst (Controller.logout new_thread_id
                 {| Controller.is_authenticated := flag;
                    Controller.api := Some a;
                    Controller.session := store;
                    Controller.api_threads := threads;
                    Controller.sync_flag := marker;
                    Controller.trace := events |})) by reflexivity.
  rewrite Hlogout. cbn [fst].
  split; [reflexivity | split; [reflexivity|]].
  intros source callback submission_type submission_uuid next Hin.
  cbn in Hin.
  destruct Hin as [<- | [<- | [<- | [<- | []]]]]; run_all;
    rewrite !enqueued_app; destruct flag; cbn; rewrite ?app_nil_r;
    reflexivity.
Qed.

Lemma logout_stops_authenticated_work_witness :
  Controller.api logging_in = Some authenticated_handle /\
  Controller.authenticated
    (Controller.exec (Controller.logout "T2") logging_in) = false.
Proof.
  split; [reflexivity|].
  apply (logout_stops_authenticated_work "T2" authenticated_handle logging_in).
  reflexivity.
Defined.

Lemma threads_started_app (l1 l2 : list Event) :
  threads_started (l1 ++ l2) = threads_started l1 ++ threads_started l2.
Proof.
  induction l1 as [|e l1 IH]; [reflexivity|].
  destruct e; cbn; rewrite ?IH; reflexivity.
Qed.

(** X6: [login_offline_mode] makes no network call and leaves the API
    handle alone: it starts no thread, hands nothing to the queue, keeps
    the handle and the registry of threads, and sets the flag to false.  So
    [authenticated()] answers as before, and a [sync_api] that follows
    still hands a [MetadataSyncJob] to the queue when the handle holds a
    token. *)
Theorem login_offline_mode_keeps_handle (st : Controller.t) :
  let st' := Controller.exec Controller.login_offline_mode st in
  Controller.outcome Controller.login_offline_mode st = Returned tt /\
  Controller.is_authenticated st' = false /\
  Controller.api st' = Controller.api st /\
  Controller.api_threads st' = Controller.api_threads st /\
  Controller.sync_flag st' = Controller.sync_flag st /\
  Controller.authenticated st' = Controller.authenticated st /\
  threads_started (Controller.trace st') =
    threads_started (Controller.trace st) /\
  enqueued (Controller.trace st') = enqueued (Controller.trace st) /\
  enqueued (Controller.trace (Controller.exec Controller.sync_api st')) =
    enqueued (Controller.trace st) ++
    (if Controller.authenticated st then [sync_job] else []).
Proof.
  destruct st as [flag handle store threads marker events].
  assert (Hst' : exists l : list Event,
    enqueued l = [] /\ threads_started l = [] /\
    Controller.login_offline_mode
      {| Controller.is_authenticated := flag; Controller.api := handle;
         Controller.session := store; Controller.api_threads := threads;
         Controller.sync_flag := marker; Controller.trace := events |} =
    ({| Controller.is_authenticated := false; Controller.api := handle;
        Controller.session := storage.mark_all_pending_drafts_as_failed store;
        Controller.api_threads := threads;
        Controller.sync_flag := marker;
        Controller.trace := events ++ l |}, Returned tt)).
  { destruct flag; eexists; (split; [|split]);
      [ | | run_all; rewrite <- !app_assoc; reflexivity
      | | | run_all; rewrite <- !app_assoc; reflexivity ];
      reflexivity. }
  destruct Hst' as (l & Hq & Ht & Hst').
  cbv zeta. unfold Controller.exec at 1 2 3 4 5 6 7, Controller.outcome.
  replace (Controller.exec Controller.login_offline_mode _)
    with (fst (Controller.login_offline_mode
                 {| Controller.is_authenticated := flag;
                    Controller.api := handle; Controller.session := store;
                    Controller.api_threads := threads;
                    Controller.sync_flag := marker;
                    Controller.trace := events |})) by reflexivity.
  rewrite Hst'. cbn [fst snd].
  repeat (split; [reflexivity|]).
  cbn [Controller.trace]. rewrite threads_started_app, enqueued_app, Ht, Hq.
  rewrite !app_nil_r. repeat (split; [reflexivity|]).
  unfold Controller.exec.
  rewrite sync_api_run.
  unfold Controller.authenticated, Controller.append.
  cbn [Controller.api Controller.trace fst].
  rewrite !enqueued_app, Hq, app_nil_r.
  destruct handle as [a|]; [destruct (API.token a)|]; reflexivity.
Qed.

(** ** Downloading a submission *)

(** X7: [on_submission_download] needs an API handle: without one it shows
    the "must sign in" status and hands nothing to the queue; with one it
    hands exactly one download job to the queue, for the kind and the uuid
    it is given, and then shows the "Downloading file" activity status. *)
Theorem on_submission_download_needs_api (submission_type : ObjectType)
    (submission_uuid : string) (st : Controller.t) :
  Controller.on_submission_download submission_type submission_uuid st =
  (Controller.append
     match Controller.api st with
     | Some _ =>
         [api_job_queue_enqueue (download_job submission_type submission_uuid);
          gui_update_activity_status "Downloading file" 5000]
     | None =>
         [gui_update_error_status "You must sign in to perform this action."
            None None]
     end st,
   Returned tt) /\
  item_of (Job.job (download_job submission_type submission_uuid)) =
    Some (submission_type, submission_uuid).
Proof.
  destruct st as [flag handle store threads marker events].
  destruct handle as [a|], submission_type; run_all;
    rewrite <- ?app_assoc; split; reflexivity.
Qed.

(** ** Jobs that fail, in general *)

Lemma failure_slot_enqueues_nothing (s : Slot) (exception : PyException)
    (st : Controller.t) :
  (forall (object_type : ObjectType) (uuid : string),
     exception <> DownloadChecksumMismatchException object_type uuid) ->
  enqueued
    (Controller.trace (Controller.exec (Controller.failure_slot s exception) st)) =
  enqueued (Controller.trace st).
Proof.
  intros Hother.
  destruct st as [flag handle store threads marker events].
  destruct s; run_all; try reflexivity;
    try (rewrite ?enqueued_app; cbn; rewrite ?app_nil_r; reflexivity);
    destruct exception as [ |object_type uuid| | | | | | | | ];
    try (exfalso; apply (Hother object_type uuid); reflexivity);
    run_all; rewrite ?enqueued_app; cbn; rewrite ?app_nil_r; reflexivity.
Qed.

(** X10: the only failure that is retried is a checksum mismatch.  When the
    failure signal of a job that is connected to failure handlers of the
    controller, as every job the controller builds is, is emitted with any
    other exception, nothing is handed to the queue. *)
Theorem only_checksum_mismatch_is_retried (j : Job.t)
    (exception : PyException) (st : Controller.t)
    (Hslots : List.forallb is_failure_handler (Job.failure_signal j) = true)
    (Hother : forall (object_type : ObjectType) (uuid : string),
       exception <> DownloadChecksumMismatchException object_type uuid) :
  enqueued
    (Controller.trace
       (Controller.exec (Controller.failure_signal_emit j exception) st)) =
  enqueued (Controller.trace st).
Proof.
  unfold Controller.failure_signal_emit. clear Hslots.
  generalize (Job.failure_signal j) as slots. intros slots. revert st.
  induction slots as [|s slots IH]; intros st; [reflexivity|].
  cbn [Controller.for_each]. unfold Controller.exec, Controller.bind.
  pose proof (failure_slot_enqueues_nothing s exception st Hother) as Hs.
  unfold Controller.exec in Hs.
  destruct (Controller.failure_slot s exception st) as [st1 [[]|ex]];
    cbn [fst] in Hs |- *.
  - rewrite <- Hs. apply IH.
  - exact Hs.
Qed.

Lemma only_checksum_mismatch_is_retried_witness :
  List.forallb is_failure_handler
    (Job.failure_signal (download_job File "F1")) = true /\
  (forall (object_type : ObjectType) (uuid : string),
     RequestTimeoutError <> DownloadChecksumMismatchException object_type uuid) /\
  enqueued
    (Controller.trace
       (Controller.exec
          (Controller.failure_signal_emit (download_job File "F1")
             RequestTimeoutError)
          logging_in)) =
  enqueued (Controller.trace logging_in).
Proof.
  assert (H : forall (object_type : ObjectType) (uuid : string),
            RequestTimeoutError <>
            DownloadChecksumMismatchException object_type uuid).
  { intros object_type uuid. discriminate. }
  split; [reflexivity | split; [exact H|]].
  apply (only_checksum_mismatch_is_retried (download_job File "F1")
           RequestTimeoutError logging_in eq_refl H).
Defined.

(** X11: a star update or a deletion that fails is reported, once, and not
    retried.  With an API handle, the job [update_star] hands to the queue
    is connected so that its failure, with whatever exception, shows
    "Failed to update star." and nothing else happens; for the job of
    [delete_source] it is "Failed to delete source at server". *)
Theorem failed_star_or_delete_is_reported (source : Source.t)
    (callback : string) (exception : PyException) (a : API.t)
    (st : Controller.t) (Hapi : Controller.api st = Some a) :
  let starred :=
    Controller.exec (Controller.update_star source callback) st in
  let deleted := Controller.exec (Controller.delete_source source) st in
  (exists j : Job.t,
     last_enqueued starred = Some j /\
     Controller.failure_signal_emit j exception starred =
       (Controller.append
          [logger INFO;
           gui_update_error_status "Failed to update star." None None]
          starred,
        Returned tt)) /\
  (exists j : Job.t,
     last_enqueued deleted = Some j /\
     Controller.failure_signal_emit j exception deleted =
       (Controller.append
          [logger INFO;
           gui_update_error_status "Failed to delete source at server"
             None None]
          deleted,
        Returned tt)).
Proof.
  destruct st as [flag handle store threads marker events].
  cbn in Hapi. subst handle. cbv zeta. unfold last_enqueued.
  split; eexists; (split;
    [ run_all; rewrite enqueued_app; cbn [enqueued]; apply last_snoc
    | unfold Controller.failure_signal_emit;
      cbn [Job.failure_signal Controller.for_each];
      run_all; rewrite <- !app_assoc; reflexivity ]).
Qed.

Lemma failed_star_or_delete_is_reported_witness :
  Controller.api logged_in = Some authenticated_handle /\
  error_statuses
    (Controller.trace
       (Controller.exec
          (Controller.failure_signal_emit
             {| Job.job := DeleteSourceJob "S1";
                Job.success_signal := [slot_on_delete_source_success];
                Job.failure_signal := [slot_on_delete_source_failure] |}
             RequestTimeoutError)
          (Controller.exec
             (Controller.delete_source (a_source 1 "S1" 10)) logged_in))) =
    ["Failed to delete source at server"].
Proof.
  split; [reflexivity|].
  destruct (failed_star_or_delete_is_reported (a_source 1 "S1" 10) "sync"
              RequestTimeoutError authenticated_handle logged_in eq_refl)
    as [_ (j & Hj & Hemit)].
  injection Hj as <-. unfold Controller.exec at 1. rewrite Hemit.
  reflexivity.
Defined.

(** ** Replies that fail, replies that succeed *)

(** X8: a reply whose job fails stays PENDING until the next sweep.  After
    [send_reply] has stored the draft and the failure signal of its job has
    been emitted with the error for that reply, a timeout or not,
    [reply_failed] has been emitted once with the uuid of the reply, nothing
    more has been handed to the queue, and the store is as [send_reply] left
    it: the draft is still PENDING.  The [login] that follows marks it
    FAILED. *)
Theorem failed_reply_stays_pending (utcnow : Z)
    (source_uuid reply_uuid message : string) (timeout : bool)
    (new_thread_id username password totp : string)
    (a : API.t) (source : Source.t) (st : Controller.t)
    (Hapi : Controller.api st = Some a)
    (Hsource :
       Session.one
         (Session.query_Source_filter_by_uuid source_uuid
            (Controller.session st)) = Returned source) :
  let draft_reply :=
    {| DraftReply.uuid := reply_uuid;
       DraftReply.timestamp := utcnow;
       DraftReply.source_id := Source.id source;
       DraftReply.journalist_id := API.token_journalist_uuid a;
       DraftReply.file_counter := Source.interaction_count source;
       DraftReply.content := message;
       DraftReply.send_status_id := PENDING |} in
  let sent :=
    Controller.exec
      (Controller.send_reply utcnow source_uuid reply_uuid message) st in
  let failed :=
    Controller.exec
      (Controller.failure_signal_emit
         (reply_job source_uuid reply_uuid message)
         (reply_error timeout reply_uuid)) sent in
  let swept_again :=
    Controller.exec
      (Controller.login new_thread_id username password totp) failed in
  last_enqueued sent = Some (reply_job source_uuid reply_uuid message) /\
  Controller.trace failed =
    Controller.trace sent ++ [logger DEBUG; reply_failed_emit reply_uuid] /\
  Controller.session failed = Controller.session sent /\
  drafts failed = drafts st ++ [draft_reply] /\
  drafts swept_again =
    List.map storage.fail_if_pending (drafts st) ++
    [storage.fail_if_pending draft_reply] /\
  DraftReply.send_status_id (storage.fail_if_pending draft_reply) = FAILED.
Proof.
  destruct st as [flag handle store threads marker events].
  cbn in Hapi, Hsource. subst handle.
  cbv zeta.
  unfold last_enqueued, drafts, reply_job, reply_error,
    Controller.failure_signal_emit.
  cbn [Job.failure_signal Controller.for_each].
  destruct timeout; run_all; rewrite Hsource; run_all;
    rewrite ?enqueued_app; cbn [enqueued];
    (split; [apply last_snoc|]);
    (split; [rewrite <- !app_assoc; reflexivity|]);
    (split; [reflexivity|]);
    cbn; rewrite ?app_nil_r, <- ?app_assoc;
    (split; [reflexivity|]);
    (split; [|reflexivity]);
    rewrite !List.map_app, <- ?app_assoc; reflexivity.
Qed.

Lemma failed_reply_stays_pending_witness :
  Controller.api logged_in = Some authenticated_handle /\
  Session.one
    (Session.query_Source_filter_by_uuid "S1" (Controller.session logged_in)) =
    Returned (a_source 1 "S1" 10) /\
  Controller.session
    (Controller.exec
       (Controller.failure_signal_emit (reply_job "S1" "R1" "hello")
          (reply_error true "R1"))
       (Controller.exec (Controller.send_reply 5 "S1" "R1" "hello")
          logged_in)) =
  Controller.session
    (Controller.exec (Controller.send_reply 5 "S1" "R1" "hello") logged_in).
Proof.
  split; [reflexivity | split; [reflexivity|]].
  apply (failed_reply_stays_pending 5 "S1" "R1" "hello" true
           "T1" "journalist" "password" "123456"
           authenticated_handle (a_source 1 "S1" 10) logged_in);
    reflexivity.
Defined.

(** X9: [on_reply_success] clears the error status, emits [reply_succeeded]
    with the uuid of the reply and then synchronises: the
    [MetadataSyncJob] is handed to the queue after the emission, and only
    when the controller holds a handle with a token. *)
Theorem on_reply_success_then_sync (reply_uuid : string) (st : Controller.t) :
  Controller.on_reply_success reply_uuid st =
    (Controller.append
       ([logger DEBUG; gui_clear_error_status;
         reply_succeeded_emit reply_uuid] ++
        (if Controller.authenticated st
         then [logger DEBUG; sync_events_emit "syncing"; logger DEBUG;
               api_job_queue_enqueue sync_job; logger DEBUG]
         else [logger DEBUG])) st,
     Returned tt).
Proof.
  unfold Controller.on_reply_success.
  cbv [Controller.bind Controller.emit]. rewrite sync_api_run.
  destruct st as [flag handle store threads marker events].
  unfold Controller.append, Controller.authenticated. cbn.
  rewrite <- !app_assoc. reflexivity.
Qed.

(** [on_reply_failure] reads [exception.reply_uuid] first: an exception
    that has none makes it raise before it has logged or emitted
    anything. *)
Lemma on_reply_failure_reads_reply_uuid (exception : PyException)
    (st : Controller.t) :
  Controller.on_reply_failure exception st =
    match exception with
    | SendReplyJobError reply_uuid | SendReplyJobTimeoutError reply_uuid =>
        (Controller.append [logger DEBUG; reply_failed_emit reply_uuid] st,
         Returned tt)
    | _ => (st, Raised (AttributeError "reply_uuid"))
    end.
Proof.
  destruct st as [flag handle store threads marker events].
  destruct exception; run_all; rewrite <- ?app_assoc; reflexivity.
Qed.

(** ** Downloads after a sync *)

Lemma enqueued_download_events (object_type : ObjectType)
    (items : list Item.t) :
  enqueued (download_events object_type items) =
  download_jobs object_type items.
Proof.
  unfold download_events, download_jobs.
  induction items as [|item items IH]; [reflexivity|].
  cbn [List.map enqueued]. rewrite IH. reflexivity.
Qed.

Lemma error_statuses_download_events (object_type : ObjectType)
    (items : list Item.t) :
  error_statuses (download_events object_type items) = [].
Proof. induction items as [|item items IH]; [reflexivity | exact IH]. Qed.

(** X12: [download_new_messages] and [download_new_replies] hand one
    download job to the queue for each item [storage.find_new_messages] and
    [storage.find_new_replies] return, of the item's kind and uuid, in that
    order, and nothing else.  The "Downloading new messages" status is shown
    exactly when there is a new message; replies show no status.  With no
    new item, nothing happens at all. *)
Theorem new_items_are_downloaded (st : Controller.t) :
  let messages := storage.find_new_messages (Controller.session st) in
  let replies := storage.find_new_replies (Controller.session st) in
  let st1 := Controller.exec Controller.download_new_messages st in
  let st2 := Controller.exec Controller.download_new_replies st in
  (same_but_trace st st1 /\ same_but_trace st st2) /\
  (enqueued (Controller.trace st1) =
     enqueued (Controller.trace st) ++ download_jobs Message messages /\
   enqueued (Controller.trace st2) =
     enqueued (Controller.trace st) ++ download_jobs Reply replies) /\
  (Controller.trace st1 =
     Controller.trace st ++
     match messages with
     | [] => []
     | _ :: _ =>
         gui_update_activity_status "Downloading new messages" 5000 ::
         download_events Message messages
     end /\
   Controller.trace st2 =
     Controller.trace st ++ download_events Reply replies) /\
  (messages = [] -> st1 = st) /\
  (replies = [] -> st2 = st).
Proof.
  cbv zeta. unfold Controller.exec.
  rewrite download_new_messages_run, download_new_replies_run. cbv zeta.
  destruct st as [flag handle store threads marker events].
  cbn [fst Controller.append Controller.trace Controller.session].
  split; [split; repeat split|].
  split; [split|].
  - rewrite !enqueued_app, enqueued_download_events.
    destruct (storage.find_new_messages store); reflexivity.
  - rewrite enqueued_app, enqueued_download_events. reflexivity.
  - split; [split; [|reflexivity]|].
    + destruct (storage.find_new_messages store); reflexivity.
    + split; intros ->; cbn; apply append_nil.
Qed.

Lemma new_items_are_downloaded_witness :
  storage.find_new_messages (Controller.session logged_in) = [] /\
  Controller.exec Controller.download_new_messages logged_in = logged_in.
Proof.
  split; [reflexivity|].
  apply (new_items_are_downloaded logged_in). reflexivity.
Defined.

(** X13: what a successful sync leaves.  The flag, the handle and the
    registry of threads are as before, and no error status is shown.  When
    the flag file is written, the sync flag holds [now], the store is as
    [storage.update_missing_files] leaves it, and the queue is handed the
    download jobs of the new messages and then those of the new replies,
    one for each, and no other job: a sync that succeeds does not start
    another sync.  When the write raises, the handler raises before it
    touches the store and hands nothing to the queue. *)
Theorem on_sync_success_downloads_new_items (now : Z)
    (write : Controller.SyncFlagWrite) (missing : File.t -> bool)
    (st : Controller.t) :
  let st' :=
    Controller.exec (Controller.on_sync_success now write missing) st in
  Controller.is_authenticated st' = Controller.is_authenticated st /\
  Controller.api st' = Controller.api st /\
  Controller.api_threads st' = Controller.api_threads st /\
  error_statuses (Controller.trace st') = error_statuses (Controller.trace st) /\
  match write with
  | Controller.flag_written =>
      Controller.outcome (Controller.on_sync_success now write missing) st =
        Returned tt /\
      Controller.sync_flag st' = Some now /\
      Controller.session st' =
        storage.update_missing_files missing (Controller.session st) /\
      enqueued (Controller.trace st') =
        enqueued (Controller.trace st) ++
        download_jobs Message
          (storage.find_new_messages (Controller.session st)) ++
        download_jobs Reply (storage.find_new_replies (Controller.session st))
  | Controller.flag_not_written ex held =>
      Controller.outcome (Controller.on_sync_success now write missing) st =
        Raised ex /\
      Controller.sync_flag st' = held /\
      Controller.session st' = Controller.session st /\
      enqueued (Controller.trace st') = enqueued (Controller.trace st)
  end.
Proof.
  cbv zeta. unfold Controller.exec, Controller.outcome.
  destruct write as [|ex held].
  - rewrite on_sync_success_run.
    destruct st as [flag handle store threads marker events].
    cbn [fst snd Controller.append
         Controller.is_authenticated Controller.api Controller.session
         Controller.api_threads Controller.sync_flag Controller.trace].
    unfold between_marker_and_synced.
    cbn [Controller.session].
    change (gui_clear_error_status :: sync_flag_write now :: ?l)
      with ([gui_clear_error_status; sync_flag_write now] ++ l).
    rewrite !enqueued_app, !error_statuses_app, !enqueued_download_events,
      !error_statuses_download_events.
    destruct (0 <? length (storage.find_new_messages store))%nat; cbn;
      rewrite ?app_nil_r; repeat split.
  - rewrite on_sync_success_not_written.
    destruct st as [flag handle store threads marker events].
    cbn. rewrite enqueued_app, error_statuses_app. cbn.
    rewrite !app_nil_r. repeat split.
Qed.

(** * Files *)

(** ** Paths *)

Import Stdlib.Strings.Ascii.

Example fn_no_ext_example :
  Files.fn_no_ext "1-doc.gz.gpg" = "1-doc" /\
  Files.fn_no_ext "2-msg.gpg" = "2-msg" /\
  os_path.splitext "/tmp/..x.y" = ("/tmp/..x", ".y") /\
  os_path.splitext "/tmp/.bashrc" = ("/tmp/.bashrc", "") /\
  os_path.join "/data" "report.pdf" = "/data/report.pdf" /\
  os_path.join "/data/" "report.pdf" = "/data/report.pdf" /\
  os_path.join "/data" "/etc/passwd" = "/etc/passwd".
Proof. repeat split. Qed.

Lemma rfind_from_app (c : Ascii.ascii) (s1 s2 : list Ascii.ascii) (i acc : Z) :
  os_path.rfind_from c (s1 ++ s2) i acc =
  os_path.rfind_from c s2 (i + Z.of_nat (length s1))
    (os_path.rfind_from c s1 i acc).
Proof.
  revert i acc. induction s1 as [|x s1 IH]; intros i acc; cbn [app length].
  - cbn. f_equal. lia.
  - cbn [os_path.rfind_from]. rewrite IH. f_equal. lia.
Qed.

Lemma rfind_from_absent (c : Ascii.ascii) (s : list Ascii.ascii) (i acc : Z) :
  List.forallb (fun x => negb (Ascii.eqb x c)) s = true ->
  os_path.rfind_from c s i acc = acc.
Proof.
  revert i acc. induction s as [|x s IH]; intros i acc H; [reflexivity|].
  cbn in H. apply andb_true_iff in H as [Hx Hs].
  cbn. apply negb_true_iff in Hx. rewrite Hx. apply IH, Hs.
Qed.

(** The extension of [stem.e] is [.e], when [e] has neither dot nor
    separator and [stem] has no separator and a character that is not a
    dot. *)
Lemma splitext_chars_ext (stem e : list Ascii.ascii) :
  List.forallb (fun x => negb (Ascii.eqb x "/"%char)) stem = true ->
  List.existsb os_path.is_not_dot stem = true ->
  List.forallb (fun x => negb (Ascii.eqb x "/"%char)) e = true ->
  List.forallb (fun x => negb (Ascii.eqb x "."%char)) e = true ->
  os_path.splitext_chars (stem ++ "."%char :: e) = (stem, "."%char :: e).
Proof.
  intros Hsep Hname Hesep Hedot.
  unfold os_path.splitext_chars, os_path.rfind.
  rewrite !rfind_from_app.
  rewrite (rfind_from_absent "/"%char stem) by exact Hsep.
  cbn [os_path.rfind_from].
  change (Ascii.eqb "."%char "/"%char) with false.
  change (Ascii.eqb "."%char "."%char) with true.
  cbv iota.
  rewrite !rfind_from_absent by assumption.
  assert (Hlt : (-1 <? 0 + Z.of_nat (length stem))%Z = true)
    by (apply Z.ltb_lt; lia).
  rewrite Hlt. unfold os_path.slice.
  replace (Z.to_nat (-1 + 1)) with 0%nat by lia.
  replace (Z.to_nat (0 + Z.of_nat (length stem) - (-1 + 1)))
    with (length stem) by lia.
  replace (Z.to_nat (0 + Z.of_nat (length stem))) with (length stem) by lia.
  rewrite List.skipn_O.
  rewrite List.firstn_app, Nat.sub_diag, List.firstn_all. cbn [List.firstn].
  rewrite app_nil_r, Hname. cbn [andb].
  rewrite List.skipn_app, Nat.sub_diag, List.skipn_all. reflexivity.
Qed.

Lemma splitext_chars_joins (p : list Ascii.ascii) :
  fst (os_path.splitext_chars p) ++ snd (os_path.splitext_chars p) = p.
Proof.
  unfold os_path.splitext_chars.
  destruct (_ && _); cbn [fst snd];
    [apply List.firstn_skipn | apply app_nil_r].
Qed.

Lemma list_ascii_of_string_app (s1 s2 : string) :
  String.list_ascii_of_string (s1 +:+ s2) =
  String.list_ascii_of_string s1 ++ String.list_ascii_of_string s2.
Proof.
  induction s1 as [|c s1 IH]; [reflexivity|].
  change (c :: String.list_ascii_of_string (s1 +:+ s2) =
          c :: (String.list_ascii_of_string s1 ++
                String.list_ascii_of_string s2)).
  f_equal. exact IH.
Qed.

Lemma string_of_list_ascii_app (l1 l2 : list Ascii.ascii) :
  String.string_of_list_ascii (l1 ++ l2) =
  String.string_of_list_ascii l1 +:+ String.string_of_list_ascii l2.
Proof.
  induction l1 as [|c l1 IH]; [reflexivity|].
  change (String c (String.string_of_list_ascii (l1 ++ l2)) =
          String c (String.string_of_list_ascii l1 +:+
                    String.string_of_list_ascii l2)).
  f_equal. exact IH.
Qed.

Lemma append_assoc (s1 s2 s3 : string) :
  s1 +:+ s2 +:+ s3 = (s1 +:+ s2) +:+ s3.
Proof.
  induction s1 as [|c s1 IH]; [reflexivity|].
  change (String c (s1 +:+ s2 +:+ s3) = String c ((s1 +:+ s2) +:+ s3)).
  f_equal. exact IH.
Qed.

Lemma splitext_joins (p : string) :
  fst (os_path.splitext p) +:+ snd (os_path.splitext p) = p.
Proof.
  unfold os_path.splitext.
  pose proof (splitext_chars_joins (String.list_ascii_of_string p)) as H.
  destruct (os_path.splitext_chars _) as [root ext]. cbn [fst snd] in *.
  rewrite <- string_of_list_ascii_app, H.
  apply String.string_of_list_ascii_of_string.
Qed.

Lemma splitext_ext (stem e : string) :
  os_path.has_no_sep stem = true ->
  os_path.has_a_name stem = true ->
  os_path.has_no_sep e = true ->
  List.forallb (fun x => negb (Ascii.eqb x "."%char))
    (String.list_ascii_of_string e) = true ->
  os_path.splitext (stem +:+ "." +:+ e) = (stem, "." +:+ e).
Proof.
  intros Hsep Hname Hesep Hedot. unfold os_path.splitext.
  rewrite list_ascii_of_string_app.
  change (String.list_ascii_of_string ("." +:+ e))
    with ("."%char :: String.list_ascii_of_string e).
  rewrite splitext_chars_ext by assumption.
  change (String.string_of_list_ascii
            ("."%char :: String.list_ascii_of_string e))
    with ("." +:+ String.string_of_list_ascii (String.list_ascii_of_string e)).
  rewrite !String.string_of_list_ascii_of_string. reflexivity.
Qed.

(** X14: the name a download is stored under.  [fn_no_ext] takes two
    extensions off a file name and what is left is a prefix of the name;
    for a server file name [stem.gz.gpg], where [stem] has no separator and
    a character that is not a dot, what is left is [stem]. *)
Theorem fn_no_ext_strips_gz_gpg (stem : string)
    (Hsep : os_path.has_no_sep stem = true)
    (Hname : os_path.has_a_name stem = true) :
  Files.fn_no_ext (stem +:+ ".gz.gpg") = stem /\
  forall filename : string,
    exists exts : string, Files.fn_no_ext filename +:+ exts = filename.
Proof.
  split.
  - unfold Files.fn_no_ext.
    change (stem +:+ ".gz.gpg") with (stem +:+ (".gz" +:+ "." +:+ "gpg")).
    rewrite append_assoc.
    rewrite (splitext_ext (stem +:+ ".gz") "gpg"); try reflexivity.
    + cbn [fst]. change (stem +:+ ".gz") with (stem +:+ "." +:+ "gz").
      rewrite (splitext_ext stem "gz"); try reflexivity; assumption.
    + unfold os_path.has_no_sep in *. rewrite list_ascii_of_string_app.
      rewrite List.forallb_app, Hsep. reflexivity.
    + unfold os_path.has_a_name in *. rewrite list_ascii_of_string_app.
      rewrite List.existsb_app, Hname. reflexivity.
  - intros filename. unfold Files.fn_no_ext.
    exists (snd (os_path.splitext (fst (os_path.splitext filename))) +:+
            snd (os_path.splitext filename)).
    rewrite append_assoc, splitext_joins. apply splitext_joins.
Qed.

Lemma fn_no_ext_strips_gz_gpg_witness :
  os_path.has_no_sep "1-doc" = true /\
  os_path.has_a_name "1-doc" = true /\
  Files.fn_no_ext ("1-doc" +:+ ".gz.gpg") = "1-doc".
Proof.
  split; [reflexivity | split; [reflexivity|]].
  apply (fn_no_ext_strips_gz_gpg "1-doc"); reflexivity.
Defined.

(** ** The file methods *)

Section FileFacts.
Context {outside : Outside}.

(** X15: the path under the original name.
    [get_path_to_file_with_original_name] returns
    [os.path.join(file_dir, filename_orig)] whenever it returns.  If that
    path exists it touches nothing; otherwise it calls [os.link] once, from
    the stored file [file_dir/fn_no_ext(filename)] to that path, and an
    exception of [os.link] is passed on.  An original name that starts with
    a separator is returned, and linked, as it is: [file_dir] is ignored. *)
Theorem get_path_to_file_with_original_name_links_once
    (file_dir filename filename_orig rest : string) (st : Files.t) :
  let path := os_path.join file_dir filename_orig in
  let filepath := os_path.join file_dir (Files.fn_no_ext filename) in
  Files.get_path_to_file_with_original_name file_dir filename filename_orig st =
    (if os_path_exists path (Files.fs st) then (st, Returned path)
     else
       match os_link filepath path (Files.fs st) with
       | Returned fs' =>
           ({| Files.data_dir := Files.data_dir st;
               Files.qubes := Files.qubes st;
               Files.fs := fs';
               Files.actions :=
                 Files.actions st ++ [Files.link filepath path] |},
            Returned path)
       | Raised ex => (st, Raised ex)
       end) /\
  os_path.join file_dir (String "/" rest) = String "/" rest.
Proof.
  split; [|reflexivity].
  destruct st as [dir q disk acts]. run_files.
  destruct (os_path_exists _ disk); [reflexivity|].
  destruct (os_link _ _ disk); reflexivity.
Qed.

(** X16: a file that is not on disk is not handed over.  When the store has
    the file and the path it is stored under does not exist, [on_file_open],
    [export_file_to_usb_drive] and [print_file] each update the missing
    files, emit [file_missing] with the uuid of the file and return: no link
    is made, no process is started, nothing is exported or printed. *)
Theorem missing_file_is_not_handed_over (file_uuid passphrase : string)
    (file : File.t) (st : Files.t)
    (Hfile : storage_get_file file_uuid = Returned file)
    (Hagain : storage_get_file (File.uuid file) = Returned file)
    (Hmissing :
       os_path_exists
         (os_path.join (Files.data_dir st)
            (Files.fn_no_ext (File.filename file)))
         (Files.fs st) = false) :
  let reported :=
    ({| Files.data_dir := Files.data_dir st;
        Files.qubes := Files.qubes st;
        Files.fs := Files.fs st;
        Files.actions :=
          Files.actions st ++
          [Files.log INFO; Files.log DEBUG; Files.update_missing_files;
           Files.file_missing_emit (File.uuid file)] |},
     Returned tt) in
  Files.on_file_open file_uuid st = reported /\
  Files.export_file_to_usb_drive file_uuid passphrase st = reported /\
  Files.print_file file_uuid st = reported.
Proof.
  destruct st as [dir q disk acts]. cbn in Hmissing.
  repeat split; run_files; rewrite Hfile, Hagain, Hmissing;
    rewrite <- !app_assoc; reflexivity.
Qed.

Lemma filter_snoc_false (p : Files.Action -> bool) (l : list Files.Action)
    (a : Files.Action) :
  p a = false -> List.filter p (l ++ [a]) = List.filter p l.
Proof.
  intros H. rewrite List.filter_app. cbn. rewrite H. apply app_nil_r.
Qed.

(** X17: outside Qubes nothing is handed over.  When [qubes] is false,
    [on_file_open], [export_file_to_usb_drive], [print_file] and
    [run_export_preflight_checks] start no process and emit no export
    signal, make no link and leave the file system as it is, whatever the
    store and the disk hold. *)
Theorem nothing_handed_over_outside_qubes (file_uuid passphrase : string)
    (m : Files.M unit) (st : Files.t)
    (Hqubes : Files.qubes st = false)
    (Hm : In m
       [Files.on_file_open file_uuid;
        Files.export_file_to_usb_drive file_uuid passphrase;
        Files.print_file file_uuid;
        Files.run_export_preflight_checks]) :
  let st' := Files.exec m st in
  Files.fs st' = Files.fs st /\
  List.filter Files.is_hand_over (Files.actions st') =
    List.filter Files.is_hand_over (Files.actions st) /\
  List.filter Files.is_link (Files.actions st') =
    List.filter Files.is_link (Files.actions st).
Proof.
  destruct st as [dir q disk acts]. cbn in Hqubes. subst q.
  cbn in Hm.
  destruct Hm as [<- | [<- | [<- | [<- | []]]]]; run_files;
    repeat match goal with
      | |- context [storage_get_file ?u] => destruct (storage_get_file u)
      | |- context [os_path_exists ?p ?d] => destruct (os_path_exists p d)
      end;
    rewrite ?filter_snoc_false by reflexivity; repeat split.
Qed.

(** X18: what is handed over in Qubes.  When the store has the file and it
    is on disk, [export_file_to_usb_drive] emits [begin_usb_export] with the
    one path [data_dir/original_filename] and the passphrase it was given,
    [print_file] emits [begin_print] with that path and [on_file_open]
    starts [qvm-open-in-vm] on it in a disposable viewer; each makes the
    link first when the path does not exist, and hands nothing over when
    [os.link] raises. *)
Theorem file_is_handed_over_under_original_name
    (file_uuid passphrase : string) (file : File.t) (st : Files.t)
    (Hfile : storage_get_file file_uuid = Returned file)
    (Hagain : storage_get_file (File.uuid file) = Returned file)
    (Hqubes : Files.qubes st = true)
    (Hthere :
       os_path_exists
         (os_path.join (Files.data_dir st)
            (Files.fn_no_ext (File.filename file)))
         (Files.fs st) = true) :
  let filepath :=
    os_path.join (Files.data_dir st) (Files.fn_no_ext (File.filename file)) in
  let path :=
    os_path.join (Files.data_dir st) (File.original_filename file) in
  let handed_over (action : Files.Action) : Files.t * Outcome unit :=
    if os_path_exists path (Files.fs st)
    then
      ({| Files.data_dir := Files.data_dir st;
          Files.qubes := Files.qubes st;
          Files.fs := Files.fs st;
          Files.actions := Files.actions st ++ [Files.log INFO; action] |},
       Returned tt)
    else
      match os_link filepath path (Files.fs st) with
      | Returned fs' =>
          ({| Files.data_dir := Files.data_dir st;
              Files.qubes := Files.qubes st;
              Files.fs := fs';
              Files.actions :=
                Files.actions st ++
                [Files.log INFO; Files.link filepath path; action] |},
           Returned tt)
      | Raised ex =>
          ({| Files.data_dir := Files.data_dir st;
              Files.qubes := Files.qubes st;
              Files.fs := Files.fs st;
              Files.actions := Files.actions st ++ [Files.log INFO] |},
           Raised ex)
      end in
  Files.export_file_to_usb_drive file_uuid passphrase st =
    handed_over (Files.begin_usb_export_emit [path] passphrase) /\
  Files.print_file file_uuid st =
    handed_over (Files.begin_print_emit [path]) /\
  Files.on_file_open file_uuid st =
    handed_over
      (Files.process_start "qvm-open-in-vm" ["$dispvm:sd-viewer"; path]).
Proof.
  destruct st as [dir q disk acts]. cbn in Hqubes, Hthere. subst q.
  repeat split; run_files; rewrite Hfile, Hagain, Hthere; run_files;
    destruct (os_path_exists (os_path.join dir (File.original_filename file))
                disk);
    run_files; rewrite <- ?app_assoc; try reflexivity;
    destruct (os_link _ _ disk); rewrite <- ?app_assoc; reflexivity.
Qed.

(** One turn of the loop of [cleanup_hardlinked_file]. *)
Lemma cleanup_hardlinked_file_cons (filepath : string)
    (filepaths : list string) (st : Files.t) :
  Files.cleanup_hardlinked_file (filepath :: filepaths) st =
  if os_path_exists filepath (Files.fs st)
  then
    match os_remove filepath (Files.fs st) with
    | Returned fs' =>
        Files.cleanup_hardlinked_file filepaths
          {| Files.data_dir := Files.data_dir st;
             Files.qubes := Files.qubes st;
             Files.fs := fs';
             Files.actions := Files.actions st ++ [Files.remove filepath] |}
    | Raised ex => (st, Raised ex)
    end
  else Files.cleanup_hardlinked_file filepaths st.
Proof.
  cbn [Files.cleanup_hardlinked_file].
  unfold Files.bind at 1 2, Files.get.
  destruct (os_path_exists filepath (Files.fs st)); [|reflexivity].
  unfold Files.on_fs.
  destruct (os_remove filepath (Files.fs st)); reflexivity.
Qed.

(** What [cleanup_hardlinked_file] leaves of the state and adds to the
    actions. *)
Lemma cleanup_hardlinked_file_removes (filepaths : list string)
    (st : Files.t) :
  exists l : list string,
    sublist l filepaths /\
    Files.actions (Files.exec (Files.cleanup_hardlinked_file filepaths) st) =
      Files.actions st ++ List.map Files.remove l /\
    Files.data_dir (Files.exec (Files.cleanup_hardlinked_file filepaths) st) =
      Files.data_dir st /\
    Files.qubes (Files.exec (Files.cleanup_hardlinked_file filepaths) st) =
      Files.qubes st.
Proof.
  revert st. induction filepaths as [|filepath filepaths IH]; intros st.
  - exists []. cbn. rewrite app_nil_r. repeat split. constructor.
  - unfold Files.exec in *. rewrite cleanup_hardlinked_file_cons.
    destruct (os_path_exists filepath (Files.fs st)).
    + destruct (os_remove filepath (Files.fs st)) as [fs'|ex].
      * match goal with
        | |- context [Files.cleanup_hardlinked_file filepaths ?s] =>
            destruct (IH s) as (l & Hsub & Hacts & Hdir & Hqubes)
        end.
        exists (filepath :: l). rewrite Hacts, Hdir, Hqubes. cbn.
        rewrite <- app_assoc. repeat split. constructor. exact Hsub.
      * exists []. cbn. rewrite app_nil_r. repeat split.
        apply sublist_nil_l.
    + destruct (IH st) as (l & Hsub & Hacts & Hdir & Hqubes).
      exists l. repeat split; try assumption. constructor. exact Hsub.
Qed.

(** X19: [cleanup_hardlinked_file] removes listed paths only.  The paths it
    calls [os.remove] on are a sublist of the paths it is given, in their
    order, and it does nothing else; when none of the paths exists it
    changes nothing at all. *)
Theorem cleanup_hardlinked_file_removes_listed_paths (filepaths : list string)
    (st : Files.t) :
  let st' := Files.exec (Files.cleanup_hardlinked_file filepaths) st in
  (exists l : list string,
     sublist l filepaths /\
     Files.actions st' = Files.actions st ++ List.map Files.remove l) /\
  (List.forallb (fun p => negb (os_path_exists p (Files.fs st))) filepaths =
     true ->
   Files.cleanup_hardlinked_file filepaths st = (st, Returned tt)).
Proof.
  cbv zeta. split.
  - destruct (cleanup_hardlinked_file_removes filepaths st)
      as (l & Hsub & Hacts & _).
    exists l. split; assumption.
  - induction filepaths as [|filepath filepaths IH]; intros Hnone;
      [reflexivity|].
    cbn in Hnone. apply andb_true_iff in Hnone as [H Hnone].
    apply negb_true_iff in H.
    rewrite cleanup_hardlinked_file_cons, H. apply IH, Hnone.
Qed.

(** X20: the link is made once.  On a file system where a path exists once
    [os.link] has made it, calling
    [get_path_to_file_with_original_name] again with the same arguments
    returns the same path and makes no second link: twice is as once. *)
Theorem link_is_made_once (file_dir filename filename_orig : string)
    (st : Files.t)
    (Hlinked : forall (src dst : string) (fs0 fs' : FS),
       os_link src dst fs0 = Returned fs' -> os_path_exists dst fs' = true) :
  Files.bind
    (Files.get_path_to_file_with_original_name file_dir filename filename_orig)
    (fun _ =>
       Files.get_path_to_file_with_original_name
         file_dir filename filename_orig) st =
  Files.get_path_to_file_with_original_name file_dir filename filename_orig st.
Proof.
  destruct st as [dir q disk acts]. run_files.
  destruct (os_path_exists (os_path.join file_dir filename_orig) disk)
    eqn:Hexists.
  - rewrite Hexists. reflexivity.
  - destruct (os_link _ _ disk) as [fs'|ex] eqn:Hlink; [|reflexivity].
    rewrite (Hlinked _ _ _ _ Hlink). reflexivity.
Qed.

End FileFacts.

Lemma missing_file_is_not_handed_over_witness :
  @storage_get_file regular_files "F1" =
    Returned {| File.uuid := "F1"; File.filename := "1-doc.gz.gpg";
                File.original_filename := "report.pdf" |} /\
  @os_path_exists regular_files "/data/1-doc" (Files.fs with_empty_disk) =
    false /\
  Files.actions (Files.exec (Files.print_file "F1") with_empty_disk) =
    [Files.log INFO; Files.log DEBUG; Files.update_missing_files;
     Files.file_missing_emit "F1"].
Proof.
  split; [reflexivity | split; [reflexivity|]].
  unfold Files.exec.
  rewrite (proj2 (proj2
    (@missing_file_is_not_handed_over regular_files "F1" "passphrase"
       {| File.uuid := "F1"; File.filename := "1-doc.gz.gpg";
          File.original_filename := "report.pdf" |}
       with_empty_disk eq_refl eq_refl eq_refl))).
  reflexivity.
Defined.

Lemma nothing_handed_over_outside_qubes_witness :
  let st :=
    {| Files.data_dir := "/data"; Files.qubes := false;
       Files.fs := Files.fs with_F1_on_disk; Files.actions := [] |} in
  Files.qubes st = false /\
  Files.fs (Files.exec (Files.on_file_open "F1") st) = Files.fs st.
Proof.
  split; [reflexivity|].
  apply (@nothing_handed_over_outside_qubes regular_files "F1" "passphrase"
           (Files.on_file_open "F1")); [reflexivity | left; reflexivity].
Defined.

Lemma file_is_handed_over_under_original_name_witness :
  Files.qubes with_F1_on_disk = true /\
  @os_path_exists regular_files "/data/1-doc" (Files.fs with_F1_on_disk) =
    true /\
  Files.actions
    (Files.exec (Files.export_file_to_usb_drive "F1" "passphrase")
       with_F1_on_disk) =
    [Files.log INFO; Files.link "/data/1-doc" "/data/report.pdf";
     Files.begin_usb_export_emit ["/data/report.pdf"] "passphrase"].
Proof.
  split; [reflexivity | split; [reflexivity|]].
  unfold Files.exec.
  rewrite (proj1
    (@file_is_handed_over_under_original_name regular_files "F1" "passphrase"
       {| File.uuid := "F1"; File.filename := "1-doc.gz.gpg";
          File.original_filename := "report.pdf" |}
       with_F1_on_disk eq_refl eq_refl eq_refl eq_refl)).
  reflexivity.
Defined.

Lemma cleanup_hardlinked_file_removes_listed_paths_witness :
  List.forallb
    (fun p => negb (@os_path_exists regular_files p (Files.fs with_F1_on_disk)))
    ["/data/report.pdf"] = true /\
  Files.cleanup_hardlinked_file ["/data/report.pdf"] with_F1_on_disk =
    (with_F1_on_disk, Returned tt).
Proof.
  split; [reflexivity|].
  apply (@cleanup_hardlinked_file_removes_listed_paths regular_files).
  reflexivity.
Defined.

Lemma link_is_made_once_witness :
  (forall (src dst : string) (fs0 fs' : @FS regular_files),
     @os_link regular_files src dst fs0 = Returned fs' ->
     @os_path_exists regular_files dst fs' = true) /\
  Files.actions
    (Files.exec
       (Files.bind
          (Files.get_path_to_file_with_original_name
             "/data" "1-doc.gz.gpg" "report.pdf")
          (fun _ =>
             Files.get_path_to_file_with_original_name
               "/data" "1-doc.gz.gpg" "report.pdf"))
       with_F1_on_disk) =
    [Files.link "/data/1-doc" "/data/report.pdf"].
Proof.
  assert (H : forall (src dst : string) (fs0 fs' : @FS regular_files),
            @os_link regular_files src dst fs0 = Returned fs' ->
            @os_path_exists regular_files dst fs' = true).
  { intros src dst fs0 fs'. cbn.
    repeat match goal with
      | |- match ?x with _ => _ end = _ -> _ => destruct x
      end; try discriminate.
    intros Heq. injection Heq as <-. rewrite lookup_insert_eq. reflexivity. }
  split; [exact H|].
  unfold Files.exec.
  rewrite (@link_is_made_once regular_files "/data" "1-doc.gz.gpg"
             "report.pdf" with_F1_on_disk H).
  reflexivity.
Defined.

(** Export, then the cleanup of what was exported: the link is made and
    removed, the downloaded file stays. *)
Example export_then_cleanup :
  let exported :=
    Files.exec (Files.export_file_to_usb_drive "F1" "passphrase")
      with_F1_on_disk in
  let cleaned :=
    Files.exec (Files.cleanup_hardlinked_file ["/data/report.pdf"]) exported in
  Files.fs exported = {["/data/1-doc" := 7%nat; "/data/report.pdf" := 7%nat]} /\
  Files.fs cleaned = Files.fs with_F1_on_disk /\
  Files.removed (Files.actions cleaned) = ["/data/report.pdf"].
Proof. vm_compute. repeat split. Qed.
